(** * budget_tool: the data-access layer of the budget manager

    A shallow embedding of [budget_database.py] (class
    [EnhancedBudgetDatabase]) and the properties of it that the
    specification states.

    Modelling conventions.
    - A table is the list of its rows in rowid order; a row is a record with
      the columns the modelled operations read or write (the [created_at] and
      [updated_at] time stamps are written by SQLite alone and never read).
      The [monthly_summary] table, which no other operation touches, is
      modelled on its own.
    - [REAL] columns and Python floats are idealised as exact rationals [Q];
      binary64 rounding is outside the model.  Where the code copies or
      combines values the statements use Leibniz equality, where they need
      laws of arithmetic they use [==] on [Q].
    - Python exceptions are values of [exn]; an operation that may raise
      returns a [result].
    - Python strings are [string]s of bytes; only ASCII matters to the
      operations modelled here.
    - The wall clock ([datetime.now()]) and the builtin [float()] are inputs
      of the operations that use them. *)

From Stdlib Require Import ZArith QArith List String Ascii Bool Lia Permutation.
From stdpp Require Import gmap strings sorting.

Local Open Scope string_scope.
Local Open Scope Z_scope.

(** ** Exceptions and results *)

Inductive exn : Set :=
| ValueError
| IndexError
| TypeError
| AttributeError
| IntegrityError.

Inductive result (A : Type) : Type :=
| Ok (a : A)
| Raise (e : exn).

Arguments Ok {A} a.
Arguments Raise {A} e.

#[global] Instance result_ret : MRet result := fun A a => Ok a.

#[global] Instance result_bind : MBind result := fun A B k r =>
  match r with
  | Ok a => k a
  | Raise e => Raise e
  end.

#[global] Instance result_fmap : FMap result := fun A B f r =>
  match r with
  | Ok a => Ok (f a)
  | Raise e => Raise e
  end.

Definition is_ok {A : Type} (r : result A) : bool :=
  match r with Ok _ => true | Raise _ => false end.

(** ** Python string primitives *)

Module PyStr.

Definition is_digit (c : ascii) : bool :=
  ((48 <=? nat_of_ascii c) && (nat_of_ascii c <=? 57))%nat.

Definition digit_value (c : ascii) : Z := Z.of_nat (nat_of_ascii c) - 48.

(** The ASCII white space that [str.strip] and [int] skip. *)
Definition is_space (c : ascii) : bool :=
  let n := nat_of_ascii c in
  ((n =? 32) || ((9 <=? n) && (n <=? 13)) || ((28 <=? n) && (n <=? 31)))%nat.

(** [s.split(sep)] for a one-character separator: never empty. *)
Fixpoint split (sep : ascii) (s : string) : list string :=
  match s with
  | EmptyString => [EmptyString]
  | String c r =>
      if Ascii.eqb c sep then EmptyString :: split sep r
      else match split sep r with
           | p :: ps => String c p :: ps
           | [] => [String c EmptyString]
           end
  end.

Fixpoint lstrip (s : string) : string :=
  match s with
  | EmptyString => EmptyString
  | String c r => if is_space c then lstrip r else s
  end.

Fixpoint rstrip (s : string) : string :=
  match s with
  | EmptyString => EmptyString
  | String c r =>
      match rstrip r with
      | EmptyString => if is_space c then EmptyString else String c EmptyString
      | r' => String c r'
      end
  end.

Definition strip (s : string) : string := rstrip (lstrip s).

(** The digits of an [int] literal after the first one: decimal digits,
    with single underscores allowed between two digits. *)
Fixpoint int_digits (acc : Z) (s : string) : option Z :=
  match s with
  | EmptyString => Some acc
  | String c r =>
      if is_digit c then int_digits (10 * acc + digit_value c) r
      else if Ascii.eqb c "_" then
        match r with
        | String d r' =>
            if is_digit d then int_digits (10 * acc + digit_value d) r'
            else None
        | EmptyString => None
        end
      else None
  end.

Definition int_unsigned (s : string) : option Z :=
  match s with
  | String c r => if is_digit c then int_digits (digit_value c) r else None
  | EmptyString => None
  end.

(** [int(s)], base 10: surrounding white space, an optional sign, digits.
    [None] stands for [ValueError]. *)
Definition int (s : string) : option Z :=
  match strip s with
  | String "+" r => int_unsigned r
  | String "-" r => Z.opp <$> int_unsigned r
  | t => int_unsigned t
  end.

Definition lower_ascii (c : ascii) : ascii :=
  let n := nat_of_ascii c in
  if ((65 <=? n) && (n <=? 90))%nat then ascii_of_nat (n + 32) else c.

(** [s.lower()] on ASCII. *)
Fixpoint lower (s : string) : string :=
  match s with
  | EmptyString => EmptyString
  | String c r => String (lower_ascii c) (lower r)
  end.

Definition digit_char (d : Z) : ascii := ascii_of_nat (Z.to_nat d + 48).

(** The decimal digits of a positive number, most significant first;
    [fuel] bounds the number of digits. *)
Fixpoint digits_of (fuel : nat) (n : Z) (acc : string) : string :=
  match fuel with
  | O => acc
  | S f =>
      let acc' := String (digit_char (n mod 10)) acc in
      if n / 10 =? 0 then acc' else digits_of f (n / 10) acc'
  end.

(** [str(n)] for an integer. *)
Definition str (n : Z) : string :=
  match n with
  | Z0 => "0"
  | Zpos _ => digits_of (Z.to_nat (Z.log2 n) + 1) n EmptyString
  | Zneg _ => String "-" (digits_of (Z.to_nat (Z.log2 (- n)) + 1) (- n) EmptyString)
  end.

Fixpoint zeros (n : nat) : string :=
  match n with
  | O => EmptyString
  | S k => String "0" (zeros k)
  end.

(** [s.zfill(width)]: zeros go after a leading sign. *)
Definition zfill (width : nat) (s : string) : string :=
  let pad := zeros (width - String.length s) in
  match s with
  | String "+" r => String "+" (pad ++ r)
  | String "-" r => String "-" (pad ++ r)
  | _ => pad ++ s
  end.

End PyStr.

(** ** Dates *)

(** [date.split('-')[1]] and [int(date.split('-')[0])], in the order the
    code evaluates them: a date without a dash raises [IndexError], a first
    field that is no integer raises [ValueError]. *)
Definition month_year_of (date : string) : result (string * Z) :=
  match PyStr.split "-" date with
  | y :: m :: _ =>
      match PyStr.int y with
      | Some year => Ok (m, year)
      | None => Raise ValueError
      end
  | _ => Raise IndexError
  end.

(** The shape [YYYY-MM-DD]: four digits, a dash, two digits, a dash, two
    digits.  Every calendar date in ISO format has this shape. *)
Definition is_iso_date (date : string) : bool :=
  match date with
  | String y1 (String y2 (String y3 (String y4 (String "-"
      (String m1 (String m2 (String "-" (String d1 (String d2 EmptyString))))))))) =>
      PyStr.is_digit y1 && PyStr.is_digit y2 && PyStr.is_digit y3 && PyStr.is_digit y4
      && PyStr.is_digit m1 && PyStr.is_digit m2
      && PyStr.is_digit d1 && PyStr.is_digit d2
  | _ => false
  end.

(** The number a string of decimal digits denotes. *)
Fixpoint decimal_value_from (acc : Z) (s : string) : Z :=
  match s with
  | EmptyString => acc
  | String c r => decimal_value_from (10 * acc + PyStr.digit_value c) r
  end.

Definition decimal_value (s : string) : Z := decimal_value_from 0 s.

(** The [MM] and [YYYY] parts of a date. *)
Definition month_part (date : string) : string := substring 5 2 date.
Definition year_part (date : string) : Z := decimal_value (substring 0 4 date).

(** ** Schema *)

Record income_row : Type := {
  i_id : Z;
  i_date : string;
  i_source : string;
  i_amount : Q;
  i_person : string;
  i_account : string;
  i_description : option string;
  i_is_transfer : bool;
  i_from_account : option string;
  i_month : string;
  i_year : Z
}.

Record expense_row : Type := {
  e_id : Z;
  e_date : string;
  e_category : string;
  e_subcategory : string;
  e_amount : Q;
  e_person : string;
  e_description : option string;
  e_account : string;
  e_cleared : bool;
  e_month : string;
  e_year : Z
}.

Record investment_account : Type := {
  a_id : Z;
  account_name : string;
  account_type : string;
  liquidity : string;
  current_balance : Q;
  previous_balance : Q;
  last_updated : string;
  a_person : option string;
  institution : option string
}.

Record savings_goal : Type := {
  g_id : Z;
  g_name : string;
  target_amount : Q;
  current_amount : Q;
  monthly_contribution : Q;
  target_date : option string;
  priority : Z;
  is_active : bool
}.

Record budget_plan : Type := {
  b_id : Z;
  b_month : string;
  b_year : Z;
  b_category : string;
  b_subcategory : string;
  planned_amount : Q
}.

Record real_asset : Type := {
  asset_name : string;
  asset_type : string;
  current_value : Q
}.

(** The database: its tables and, for the tables the modelled operations
    insert into, the [AUTOINCREMENT] counter of [sqlite_sequence]. *)
Record database : Type := {
  income : list income_row;
  expenses : list expense_row;
  investment_accounts : list investment_account;
  savings_goals : list savings_goal;
  budget_plans : list budget_plan;
  real_assets : list real_asset;
  seq_income : Z;
  seq_expenses : Z;
  seq_budget_plans : Z
}.

Definition with_income (db : database) (rows : list income_row) (seq : Z) : database :=
  {| income := rows; expenses := expenses db;
     investment_accounts := investment_accounts db;
     savings_goals := savings_goals db; budget_plans := budget_plans db;
     real_assets := real_assets db;
     seq_income := seq; seq_expenses := seq_expenses db;
     seq_budget_plans := seq_budget_plans db |}.

Definition with_expenses (db : database) (rows : list expense_row) (seq : Z) : database :=
  {| income := income db; expenses := rows;
     investment_accounts := investment_accounts db;
     savings_goals := savings_goals db; budget_plans := budget_plans db;
     real_assets := real_assets db;
     seq_income := seq_income db; seq_expenses := seq;
     seq_budget_plans := seq_budget_plans db |}.

Definition with_investment_accounts (db : database)
    (rows : list investment_account) : database :=
  {| income := income db; expenses := expenses db;
     investment_accounts := rows;
     savings_goals := savings_goals db; budget_plans := budget_plans db;
     real_assets := real_assets db;
     seq_income := seq_income db; seq_expenses := seq_expenses db;
     seq_budget_plans := seq_budget_plans db |}.

Definition with_savings_goals (db : database) (rows : list savings_goal) : database :=
  {| income := income db; expenses := expenses db;
     investment_accounts := investment_accounts db;
     savings_goals := rows; budget_plans := budget_plans db;
     real_assets := real_assets db;
     seq_income := seq_income db; seq_expenses := seq_expenses db;
     seq_budget_plans := seq_budget_plans db |}.

Definition with_budget_plans (db : database) (rows : list budget_plan) (seq : Z) : database :=
  {| income := income db; expenses := expenses db;
     investment_accounts := investment_accounts db;
     savings_goals := savings_goals db; budget_plans := rows;
     real_assets := real_assets db;
     seq_income := seq_income db; seq_expenses := seq_expenses db;
     seq_budget_plans := seq |}.

Definition empty_database : database :=
  {| income := []; expenses := []; investment_accounts := [];
     savings_goals := []; budget_plans := []; real_assets := [];
     seq_income := 0; seq_expenses := 0; seq_budget_plans := 0 |}.

(** ** Income and expense rows: add, update, delete *)

Definition add_income (db : database) (date source : string) (amount : Q)
    (person account : string) (description : option string)
    (is_transfer : bool) (from_account : option string) : result (database * Z) :=
  '(month, year) ← month_year_of date;
  let id := seq_income db + 1 in
  let row := {| i_id := id; i_date := date; i_source := source;
                i_amount := amount; i_person := person; i_account := account;
                i_description := description; i_is_transfer := is_transfer;
                i_from_account := from_account;
                i_month := month; i_year := year |} in
  Ok (with_income db (income db ++ [row]) id, id).

(** The [data] dictionary of [update_income]. *)
Record income_data : Type := {
  di_date : string;
  di_source : string;
  di_amount : Q;
  di_person : string;
  di_account : string;
  di_description : option string;
  di_is_transfer : bool;
  di_from_account : option string
}.

Definition update_income (db : database) (income_id : Z) (data : income_data)
    : result database :=
  '(month, year) ← month_year_of (di_date data);
  let set (r : income_row) : income_row :=
    if i_id r =? income_id then
      {| i_id := i_id r; i_date := di_date data; i_source := di_source data;
         i_amount := di_amount data; i_person := di_person data;
         i_account := di_account data; i_description := di_description data;
         i_is_transfer := di_is_transfer data;
         i_from_account := di_from_account data;
         i_month := month; i_year := year |}
    else r in
  Ok (with_income db (map set (income db)) (seq_income db)).

Definition delete_income (db : database) (income_id : Z) : database :=
  with_income db (List.filter (fun r => negb (i_id r =? income_id)) (income db))
    (seq_income db).

Definition add_expense (db : database) (date category subcategory : string)
    (amount : Q) (person : string) (description : option string)
    (account : string) (cleared : bool) : result (database * Z) :=
  '(month, year) ← month_year_of date;
  let id := seq_expenses db + 1 in
  let row := {| e_id := id; e_date := date; e_category := category;
                e_subcategory := subcategory; e_amount := amount;
                e_person := person; e_description := description;
                e_account := account; e_cleared := cleared;
                e_month := month; e_year := year |} in
  Ok (with_expenses db (expenses db ++ [row]) id, id).

(** The [data] dictionary of [update_expense]. *)
Record expense_data : Type := {
  de_date : string;
  de_category : string;
  de_subcategory : string;
  de_amount : Q;
  de_person : string;
  de_description : option string;
  de_account : string;
  de_cleared : bool
}.

Definition update_expense (db : database) (expense_id : Z) (data : expense_data)
    : result database :=
  '(month, year) ← month_year_of (de_date data);
  let set (r : expense_row) : expense_row :=
    if e_id r =? expense_id then
      {| e_id := e_id r; e_date := de_date data;
         e_category := de_category data; e_subcategory := de_subcategory data;
         e_amount := de_amount data; e_person := de_person data;
         e_description := de_description data; e_account := de_account data;
         e_cleared := de_cleared data;
         e_month := month; e_year := year |}
    else r in
  Ok (with_expenses db (map set (expenses db)) (seq_expenses db)).

Definition delete_expense (db : database) (expense_id : Z) : database :=
  with_expenses db (List.filter (fun r => negb (e_id r =? expense_id)) (expenses db))
    (seq_expenses db).

(** ** Queries *)

Local Open Scope Q_scope.

(** Python's [sum]: the items added from the left, starting from 0. *)
Definition py_sum (xs : list Q) : Q := fold_left Qplus xs 0.

(** [x > y] *)
Definition Qgtb (x y : Q) : bool := negb (Qle_bool x y).

(** [WHERE month = ? AND year = ?] *)
Definition in_period (month : string) (year : Z) (m : string) (y : Z) : bool :=
  String.eqb m month && (y =? year)%Z.

(** [ORDER BY date DESC]: text compares byte by byte. *)
Definition income_date_desc (x y : income_row) : Prop :=
  String.leb (i_date y) (i_date x) = true.

Definition expense_date_desc (x y : expense_row) : Prop :=
  String.leb (e_date y) (e_date x) = true.

#[global] Instance income_date_desc_dec x y : Decision (income_date_desc x y).
Proof. unfold income_date_desc. apply _. Defined.

#[global] Instance expense_date_desc_dec x y : Decision (expense_date_desc x y).
Proof. unfold expense_date_desc. apply _. Defined.

Definition select_income (db : database) (month : string) (year : Z)
    : list income_row :=
  merge_sort income_date_desc
    (List.filter (fun r => in_period month year (i_month r) (i_year r)) (income db)).

Definition select_expenses (db : database) (month : string) (year : Z)
    : list expense_row :=
  merge_sort expense_date_desc
    (List.filter (fun r => in_period month year (e_month r) (e_year r)) (expenses db)).

(** One output row of [SELECT category, subcategory, SUM(amount) ... GROUP BY
    category, subcategory]. *)
Definition group_row : Type := (string * string * Q)%type.

Fixpoint group_add (cat subcat : string) (x : Q) (gs : list group_row)
    : list group_row :=
  match gs with
  | [] => [(cat, subcat, x)]
  | (c, s, total) :: rest =>
      if String.eqb c cat && String.eqb s subcat
      then (c, s, total + x) :: rest
      else (c, s, total) :: group_add cat subcat x rest
  end.

(** The expense totals of a period, one row per (category, subcategory);
    the groups come in the order of their first row. *)
Definition expense_totals (db : database) (month : string) (year : Z)
    : list group_row :=
  fold_left
    (fun gs r => group_add (e_category r) (e_subcategory r) (e_amount r) gs)
    (List.filter (fun r => in_period month year (e_month r) (e_year r)) (expenses db))
    [].

Record summary : Type := {
  total_income : Q;
  total_expenses : Q;
  net_balance : Q;
  transfer_in : Q;
  cleared_expenses : Q;
  pending_expenses : Q
}.

Record monthly_data : Type := {
  md_income : list income_row;
  md_expenses : list expense_row;
  md_summary : summary;
  category_totals : gmap string Q;
  subcategory_totals : gmap string (gmap string Q)
}.

Definition add_category_total (ct : gmap string Q) (row : group_row)
    : gmap string Q :=
  let '(cat, _, total) := row in
  <[cat := default 0 (ct !! cat) + total]> ct.

Definition add_subcategory_total (st : gmap string (gmap string Q))
    (row : group_row) : gmap string (gmap string Q) :=
  let '(cat, subcat, total) := row in
  <[cat := <[subcat := total]> (default ∅ (st !! cat))]> st.

Definition get_monthly_data (db : database) (month : string) (year : Z)
    : monthly_data :=
  let inc := select_income db month year in
  let exps := select_expenses db month year in
  let totals := expense_totals db month year in
  let total_income :=
    py_sum (map i_amount (List.filter (fun r => negb (i_is_transfer r)) inc)) in
  let total_expenses := py_sum (map e_amount exps) in
  {| md_income := inc;
     md_expenses := exps;
     md_summary :=
       {| total_income := total_income;
          total_expenses := total_expenses;
          net_balance := total_income - total_expenses;
          transfer_in :=
            py_sum (map i_amount (List.filter (fun r => i_is_transfer r) inc));
          cleared_expenses :=
            py_sum (map e_amount (List.filter (fun r => e_cleared r) exps));
          pending_expenses :=
            py_sum (map e_amount (List.filter (fun r => negb (e_cleared r)) exps)) |};
     category_totals := fold_left add_category_total totals ∅;
     subcategory_totals := fold_left add_subcategory_total totals ∅ |}.

(** *** Budget versus actual *)

Record comparison_entry : Type := {
  planned : Q;
  actual : Q;
  variance : Q;
  percentage : Q
}.

(** [SELECT category, subcategory, planned_amount FROM budget_plans WHERE
    month = ? AND year = ?] *)
Definition select_plans (db : database) (month : string) (year : Z)
    : list budget_plan :=
  List.filter (fun r => in_period month year (b_month r) (b_year r)) (budget_plans db).

(** The entry a planned amount is recorded with. *)
Definition planned_entry (p : Q) : comparison_entry :=
  {| planned := p; actual := 0; variance := 0; percentage := 0 |}.

(** The body of the loop over the planned amounts. *)
Definition add_planned (comparison : gmap string (gmap string comparison_entry))
    (row : budget_plan) : gmap string (gmap string comparison_entry) :=
  let cat := b_category row in
  let subcat := b_subcategory row in
  <[cat := <[subcat := planned_entry (planned_amount row)]>
             (default ∅ (comparison !! cat))]> comparison.

(** What [comparison[cat][subcat]] holds once an actual amount is merged:
    a fresh entry when the subcategory is not there yet, else the entry of
    the plan with its [actual] and [variance] overwritten, and its
    [percentage] only when the planned amount is positive. *)
Definition actual_entry (existing : option comparison_entry) (act : Q)
    : comparison_entry :=
  match existing with
  | None =>
      {| planned := 0; actual := act; variance := - act; percentage := 0 |}
  | Some entry =>
      let p := planned entry in
      {| planned := p; actual := act; variance := p - act;
         percentage := if Qgtb p 0 then (act / p) * 100 else percentage entry |}
  end.

(** The body of the loop over the actual amounts. *)
Definition add_actual (comparison : gmap string (gmap string comparison_entry))
    (row : group_row) : gmap string (gmap string comparison_entry) :=
  let '(cat, subcat, act) := row in
  let inner := default ∅ (comparison !! cat) in
  <[cat := <[subcat := actual_entry (inner !! subcat) act]> inner]> comparison.

Definition get_budget_vs_actual (db : database) (month : string) (year : Z)
    : gmap string (gmap string comparison_entry) :=
  fold_left add_actual (expense_totals db month year)
    (fold_left add_planned (select_plans db month year) ∅).

(** [comparison[cat][subcat]], when present. *)
Definition entry_of (comparison : gmap string (gmap string comparison_entry))
    (cat subcat : string) : option comparison_entry :=
  comparison !! cat ≫= fun inner => inner !! subcat.

(** *** Net worth *)

Record net_worth : Type := {
  liquid_assets : Q;
  semi_liquid_assets : Q;
  non_liquid_assets : Q;
  nw_real_assets : Q;
  total_assets : Q;
  by_account_type : gmap string Q;
  by_person : gmap string Q;
  month_over_month_change : Q
}.

Definition net_worth_zero : net_worth :=
  {| liquid_assets := 0; semi_liquid_assets := 0; non_liquid_assets := 0;
     nw_real_assets := 0; total_assets := 0; by_account_type := ∅;
     by_person := ∅; month_over_month_change := 0 |}.

(** [if person:] — neither [NULL] nor the empty string. *)
Definition truthy (s : option string) : option string :=
  match s with
  | Some "" => None
  | other => other
  end.

(** The body of the loop over the investment accounts. *)
Definition add_account (s : net_worth) (row : investment_account) : net_worth :=
  let current := current_balance row in
  let previous := previous_balance row in
  let liquid := String.eqb (liquidity row) "Liquid" in
  let semi := negb liquid && String.eqb (liquidity row) "Semi-Liquid" in
  let other := negb liquid && negb semi in
  {| liquid_assets :=
       if liquid then liquid_assets s + current else liquid_assets s;
     semi_liquid_assets :=
       if semi then semi_liquid_assets s + current else semi_liquid_assets s;
     non_liquid_assets :=
       if other then non_liquid_assets s + current else non_liquid_assets s;
     nw_real_assets := nw_real_assets s;
     total_assets := total_assets s;
     by_account_type :=
       <[account_type row :=
           default 0 (by_account_type s !! account_type row) + current]>
         (by_account_type s);
     by_person :=
       match truthy (a_person row) with
       | Some person =>
           <[person := default 0 (by_person s !! person) + current]> (by_person s)
       | None => by_person s
       end;
     month_over_month_change := month_over_month_change s + (current - previous) |}.

(** [SELECT SUM(current_value) FROM real_assets], then
    [result[0] if result and result[0] else 0]: no rows or a zero total
    both give 0. *)
Definition real_assets_total (db : database) : Q :=
  match real_assets db with
  | [] => 0
  | rows =>
      let total := py_sum (map current_value rows) in
      if Qeq_bool total 0 then 0 else total
  end.

Definition get_net_worth_summary (db : database) : net_worth :=
  let s := fold_left add_account (investment_accounts db) net_worth_zero in
  let real := real_assets_total db in
  {| liquid_assets := liquid_assets s;
     semi_liquid_assets := semi_liquid_assets s;
     non_liquid_assets := non_liquid_assets s;
     nw_real_assets := real;
     total_assets :=
       liquid_assets s + semi_liquid_assets s + non_liquid_assets s + real;
     by_account_type := by_account_type s;
     by_person := by_person s;
     month_over_month_change := month_over_month_change s |}.

(** ** Balances, goals and plans *)

(** [now] is [datetime.now().strftime('%Y-%m-%d')].  The balance read first
    is that of the first row with the name ([fetchone]), 0 when there is
    none; the [UPDATE] then writes every row with the name. *)
Definition update_investment_account (db : database) (name : string)
    (new_balance : Q) (now : string) : database :=
  let previous :=
    match List.find (fun r => String.eqb (account_name r) name)
            (investment_accounts db) with
    | Some r => current_balance r
    | None => 0
    end in
  let set (r : investment_account) : investment_account :=
    if String.eqb (account_name r) name then
      {| a_id := a_id r; account_name := account_name r;
         account_type := account_type r; liquidity := liquidity r;
         current_balance := new_balance; previous_balance := previous;
         last_updated := now; a_person := a_person r;
         institution := institution r |}
    else r in
  with_investment_accounts db (map set (investment_accounts db)).

Definition set_current_amount (g : savings_goal) (x : Q) : savings_goal :=
  {| g_id := g_id g; g_name := g_name g; target_amount := target_amount g;
     current_amount := x; monthly_contribution := monthly_contribution g;
     target_date := target_date g; priority := priority g;
     is_active := is_active g |}.

(** [SET current_amount = ?] *)
Definition update_savings_goal (db : database) (goal_id : Z) (amount : Q)
    : database :=
  with_savings_goals db
    (map (fun g => if (g_id g =? goal_id)%Z then set_current_amount g amount else g)
       (savings_goals db)).

(** [SET current_amount = current_amount + ?] *)
Definition update_savings_goal_contribution (db : database) (goal_id : Z)
    (amount : Q) : database :=
  with_savings_goals db
    (map (fun g => if (g_id g =? goal_id)%Z
                   then set_current_amount g (current_amount g + amount)
                   else g)
       (savings_goals db)).

(** The goal with a given id. *)
Definition goal_by_id (db : database) (goal_id : Z) : option savings_goal :=
  List.find (fun g => (g_id g =? goal_id)%Z) (savings_goals db).

(** The key of the [UNIQUE(month, year, category, subcategory)] constraint. *)
Definition same_plan_key (month : string) (year : Z) (category subcategory : string)
    (r : budget_plan) : bool :=
  String.eqb (b_month r) month && (b_year r =? year)%Z
  && String.eqb (b_category r) category
  && String.eqb (b_subcategory r) subcategory.

(** [INSERT OR REPLACE]: the row with the same key, if any, is deleted and
    the new row is inserted under a fresh id. *)
Definition update_budget_plan (db : database) (month : string) (year : Z)
    (category subcategory : string) (amount : Q) : database :=
  let id := (seq_budget_plans db + 1)%Z in
  let kept :=
    List.filter (fun r => negb (same_plan_key month year category subcategory r))
      (budget_plans db) in
  with_budget_plans db
    (kept ++ [{| b_id := id; b_month := month; b_year := year;
                 b_category := category; b_subcategory := subcategory;
                 planned_amount := amount |}])
    id.

(** The period before the target one; [int(target_month)] may raise. *)
Definition previous_period (target_month : string) (target_year : Z)
    : result (string * Z) :=
  match PyStr.int target_month with
  | None => Raise ValueError
  | Some n =>
      if (n =? 1)%Z then Ok ("12"%string, (target_year - 1)%Z)
      else Ok (PyStr.zfill 2 (PyStr.str (n - 1)), target_year)
  end.

(** The loop that writes the fetched rows into the target period. *)
Definition upsert_plans (db : database) (target_month : string) (target_year : Z)
    (rows : list budget_plan) : database :=
  fold_left
    (fun d row =>
       update_budget_plan d target_month target_year
         (b_category row) (b_subcategory row) (planned_amount row))
    rows db.

(** The rows are fetched before the first of them is written back. *)
Definition copy_budget_from_previous_month (db : database) (target_month : string)
    (target_year : Z) : result database :=
  '(prev_month, prev_year) ← previous_period target_month target_year;
  Ok (upsert_plans db target_month target_year
        (select_plans db prev_month prev_year)).

(** ** CSV import *)

(** A row of [csv.DictReader]: the header names mapped to the cells of the
    line, [None] for a header the line is too short for. *)
Definition csv_row : Type := gmap string (option string).

(** [row.get(key, default)] where the default is a string. *)
Definition row_get (row : csv_row) (key default : string) : option string :=
  match row !! key with
  | Some cell => cell
  | None => Some default
  end.

(** What [import_csv_data] returns. *)
Inductive import_result : Type :=
| Imported (imported : nat) (errors : list (nat * exn))
| Failed (error : exn).

Definition success (r : import_result) : bool :=
  match r with Imported _ _ => true | Failed _ => false end.

Section CsvImport.

(** The builtin [float] on strings ([None] for [ValueError]) and the
    current date. *)
Variable py_float : string -> option Q.
Variable now : string.

(** [float(row.get('Amount', 0))] *)
Definition row_amount (row : csv_row) : result Q :=
  match row !! "Amount"%string with
  | None => Ok 0
  | Some None => Raise TypeError
  | Some (Some s) =>
      match py_float s with
      | Some x => Ok x
      | None => Raise ValueError
      end
  end.

(** [row.get(key, default).lower() == 'true'] *)
Definition row_flag (row : csv_row) (key default : string) : result bool :=
  match row_get row key default with
  | Some s => Ok (String.eqb (PyStr.lower s) "true")
  | None => Raise AttributeError
  end.

(** A value bound to a [NOT NULL] column. *)
Definition not_null (cell : option string) : result string :=
  match cell with
  | Some s => Ok s
  | None => Raise IntegrityError
  end.

(** The receiver of [date.split]. *)
Definition date_arg (cell : option string) : result string :=
  match cell with
  | Some s => Ok s
  | None => Raise AttributeError
  end.

(** The call of [add_expense] on a row.  The arguments are evaluated in
    the order of the call; inside [add_expense] the date is split before
    the [INSERT] checks its [NOT NULL] columns. *)
Definition import_expense (db : database) (row : csv_row) : result database :=
  amount ← row_amount row;
  cleared ← row_flag row "Cleared" "True";
  date ← date_arg (row_get row "Date" now);
  _ ← month_year_of date;
  category ← not_null (row_get row "Category" "Other");
  subcategory ← not_null (row_get row "Sub Category" "Other");
  person ← not_null (row_get row "Person" "Joint");
  account ← not_null (row_get row "Account" "Checking");
  '(db', _) ← add_expense db date category subcategory amount person
                (row_get row "Description" "") account cleared;
  Ok db'.

(** The call of [add_income] on a row. *)
Definition import_income (db : database) (row : csv_row) : result database :=
  amount ← row_amount row;
  is_transfer ← row_flag row "IsTransfer" "False";
  date ← date_arg (row_get row "Date" now);
  _ ← month_year_of date;
  source ← not_null (row_get row "Source" "Other");
  person ← not_null (row_get row "Person" "Joint");
  account ← not_null (row_get row "Account" "Checking");
  '(db', _) ← add_income db date source amount person account
                (row_get row "Description" "") is_transfer
                (row_get row "FromAccount" "");
  Ok db'.

(** The body of the inner [try]: any other [data_type] does nothing. *)
Definition import_row (data_type : string) (db : database) (row : csv_row)
    : result database :=
  if String.eqb data_type "expenses" then import_expense db row
  else if String.eqb data_type "income" then import_income db row
  else Ok db.

(** The loop over the rows: [imported] counts the rows that raised
    nothing, and a row that raises is recorded as
    [f"Row {imported + 1}: {str(e)}"]. *)
Fixpoint import_rows (data_type : string) (rows : list csv_row) (db : database)
    (imported : nat) (errors : list (nat * exn))
    : database * nat * list (nat * exn) :=
  match rows with
  | [] => (db, imported, errors)
  | row :: rest =>
      match import_row data_type db row with
      | Ok db' => import_rows data_type rest db' (S imported) errors
      | Raise e =>
          import_rows data_type rest db imported
            (errors ++ [((imported + 1)%nat, e)])
      end
  end.

(** [file] is what opening and reading [filepath] gives: the rows, or the
    exception of the outer [try]. *)
Definition import_csv_data (db : database) (file : result (list csv_row))
    (data_type : string) : database * import_result :=
  match file with
  | Raise e => (db, Failed e)
  | Ok rows =>
      let '(db', imported, errors) := import_rows data_type rows db 0 [] in
      (db', Imported imported errors)
  end.

End CsvImport.

(** ** Reading the plans *)

(** [ORDER BY category, subcategory] *)
Definition plan_order (x y : budget_plan) : Prop :=
  String.ltb (b_category x) (b_category y)
  || (String.eqb (b_category x) (b_category y)
      && String.leb (b_subcategory x) (b_subcategory y)) = true.

#[global] Instance plan_order_dec x y : Decision (plan_order x y).
Proof. unfold plan_order. apply _. Defined.

(** The body of the loop of [get_budget_plans]. *)
Definition add_plan (plans : gmap string (gmap string Q)) (row : budget_plan)
    : gmap string (gmap string Q) :=
  let cat := b_category row in
  <[cat := <[b_subcategory row := planned_amount row]>
             (default ∅ (plans !! cat))]> plans.

Definition get_budget_plans (db : database) (month : string) (year : Z)
    : gmap string (gmap string Q) :=
  fold_left add_plan (merge_sort plan_order (select_plans db month year)) ∅.

(** ** Listing and deactivating goals *)

(** [SET is_active = 0] *)
Definition deactivate_savings_goal (db : database) (goal_id : Z) : database :=
  with_savings_goals db
    (map (fun g =>
            if (g_id g =? goal_id)%Z then
              {| g_id := g_id g; g_name := g_name g;
                 target_amount := target_amount g;
                 current_amount := current_amount g;
                 monthly_contribution := monthly_contribution g;
                 target_date := target_date g; priority := priority g;
                 is_active := false |}
            else g)
       (savings_goals db)).

(** The order of a nullable text column: [NULL] comes first. *)
Definition nullable_leb (x y : option string) : bool :=
  match x, y with
  | None, _ => true
  | Some _, None => false
  | Some a, Some b => String.leb a b
  end.

(** [ORDER BY priority, target_date] *)
Definition goal_order (x y : savings_goal) : Prop :=
  (priority x <? priority y)%Z
  || ((priority x =? priority y)%Z
      && nullable_leb (target_date x) (target_date y)) = true.

#[global] Instance goal_order_dec x y : Decision (goal_order x y).
Proof. unfold goal_order. apply _. Defined.

(** [WHERE is_active = 1 ORDER BY priority, target_date] *)
Definition get_savings_goals (db : database) : list savings_goal :=
  merge_sort goal_order (List.filter is_active (savings_goals db)).

(** ** Monthly summaries *)

(** The operations on [monthly_summary] read and write no other table, so
    they are modelled on that table and its [AUTOINCREMENT] counter. *)
Record monthly_summary_row : Type := {
  s_id : Z;
  s_month : string;
  s_year : Z;
  s_total_income : Q;
  s_total_expenses : Q;
  s_total_saved : Q;
  s_net_worth : Q;
  s_budget_variance : Q;
  s_savings_rate : Q;
  s_notes : string
}.

Record monthly_summaries : Type := {
  summary_rows : list monthly_summary_row;
  seq_monthly_summary : Z
}.

(** The [data] dictionary of [save_monthly_summary]; [None] is a key that
    is absent. *)
Record summary_data : Type := {
  sd_total_income : option Q;
  sd_total_expenses : option Q;
  sd_total_saved : option Q;
  sd_net_worth : option Q;
  sd_budget_variance : option Q;
  sd_savings_rate : option Q;
  sd_notes : option string
}.

(** The key of the [UNIQUE(month, year)] constraint. *)
Definition same_month (month : string) (year : Z) (r : monthly_summary_row) : bool :=
  String.eqb (s_month r) month && (s_year r =? year)%Z.

(** [INSERT OR REPLACE], with [data.get(key, 0)] for each amount. *)
Definition save_monthly_summary (t : monthly_summaries) (month : string)
    (year : Z) (data : summary_data) : monthly_summaries :=
  let id := (seq_monthly_summary t + 1)%Z in
  {| summary_rows :=
       List.filter (fun r => negb (same_month month year r)) (summary_rows t)
       ++ [{| s_id := id; s_month := month; s_year := year;
              s_total_income := default 0 (sd_total_income data);
              s_total_expenses := default 0 (sd_total_expenses data);
              s_total_saved := default 0 (sd_total_saved data);
              s_net_worth := default 0 (sd_net_worth data);
              s_budget_variance := default 0 (sd_budget_variance data);
              s_savings_rate := default 0 (sd_savings_rate data);
              s_notes := default "" (sd_notes data) |}];
     seq_monthly_summary := id |}.

(** [SUM] and [AVG] over the rows selected: [NULL] when there is none. *)
Definition sql_sum (xs : list Q) : option Q :=
  match xs with
  | [] => None
  | _ => Some (py_sum xs)
  end.

Definition sql_avg (xs : list Q) : option Q :=
  match xs with
  | [] => None
  | _ => Some (py_sum xs / inject_Z (Z.of_nat (length xs)))
  end.

(** [x or 0]: 0 for [NULL] and for a zero. *)
Definition or_zero (x : option Q) : Q :=
  match x with
  | Some v => if Qeq_bool v 0 then 0 else v
  | None => 0
  end.

Record year_to_date : Type := {
  ytd_income : Q;
  ytd_expenses : Q;
  ytd_saved : Q;
  avg_savings_rate : Q
}.

Definition get_year_to_date_summary (t : monthly_summaries) (year : Z)
    : year_to_date :=
  let rows := List.filter (fun r => (s_year r =? year)%Z) (summary_rows t) in
  {| ytd_income := or_zero (sql_sum (map s_total_income rows));
     ytd_expenses := or_zero (sql_sum (map s_total_expenses rows));
     ytd_saved := or_zero (sql_sum (map s_total_saved rows));
     avg_savings_rate := or_zero (sql_avg (map s_savings_rate rows)) |}.

(** ** Clients and specification-side notions *)

(** The operations that write the date of an income or expense row, and
    the two that delete one. *)
Inductive operation : Type :=
| AddIncome (date source : string) (amount : Q) (person account : string)
    (description : option string) (is_transfer : bool)
    (from_account : option string)
| AddExpense (date category subcategory : string) (amount : Q) (person : string)
    (description : option string) (account : string) (cleared : bool)
| UpdateIncome (income_id : Z) (data : income_data)
| UpdateExpense (expense_id : Z) (data : expense_data)
| DeleteIncome (income_id : Z)
| DeleteExpense (expense_id : Z).

Definition apply_operation (db : database) (op : operation) : result database :=
  match op with
  | AddIncome date source amount person account description is_transfer from_account =>
      fst <$> add_income db date source amount person account description
                is_transfer from_account
  | AddExpense date category subcategory amount person description account cleared =>
      fst <$> add_expense db date category subcategory amount person description
                account cleared
  | UpdateIncome income_id data => update_income db income_id data
  | UpdateExpense expense_id data => update_expense db expense_id data
  | DeleteIncome income_id => Ok (delete_income db income_id)
  | DeleteExpense expense_id => Ok (delete_expense db expense_id)
  end.

(** A caller that performs the operations in turn and stops at the first
    exception. *)
Fixpoint run (db : database) (ops : list operation) : result database :=
  match ops with
  | [] => Ok db
  | op :: rest => db' ← apply_operation db op; run db' rest
  end.





(** The mathematical sum of a list of amounts. *)
Definition Qsum (xs : list Q) : Q := fold_right Qplus 0 xs.

(** The [UNIQUE(month, year, category, subcategory)] constraint of
    [budget_plans] and the [UNIQUE] constraint on [account_name]. *)
Definition plan_key (r : budget_plan) : string * Z * string * string :=
  (b_month r, b_year r, b_category r, b_subcategory r).

Definition plans_unique (db : database) : Prop :=
  NoDup (map plan_key (budget_plans db)).

Definition account_names_unique (db : database) : Prop :=
  NoDup (map account_name (investment_accounts db)).

(** The expense rows of a period in one (category, subcategory). *)
Definition expenses_of (db : database) (month : string) (year : Z)
    (category subcategory : string) : list expense_row :=
  List.filter
    (fun r => in_period month year (e_month r) (e_year r)
              && String.eqb (e_category r) category
              && String.eqb (e_subcategory r) subcategory)
    (expenses db).


(** A caller that makes several contributions to one goal. *)
Definition contribute_all (db : database) (goal_id : Z) (amounts : list Q)
    : database :=
  fold_left (fun d x => update_savings_goal_contribution d goal_id x) amounts db.

(** The total of a (category, subcategory) among grouped totals. *)
Fixpoint total_of (gs : list group_row) (cat subcat : string) : option Q :=
  match gs with
  | [] => None
  | (c, s, total) :: rest =>
      if String.eqb c cat && String.eqb s subcat then Some total
      else total_of rest cat subcat
  end.



(** ** Example data *)

(** March 2024 with a plan of 500 for groceries and no expense at all. *)
Definition groceries_planned : database :=
  update_budget_plan empty_database "03" 2024 "Food" "Food (Groceries)" 500.

(** March 2024 with a plan of 500 for groceries, two grocery expenses of
    400 and 200, and a kitchen expense of 30 that has no plan. *)
Definition groceries_overspent : database :=
  with_expenses groceries_planned
    [{| e_id := 1; e_date := "2024-03-02"; e_category := "Food";
        e_subcategory := "Food (Groceries)"; e_amount := 400;
        e_person := "Jeff"; e_description := None; e_account := "Checking";
        e_cleared := true; e_month := "03"; e_year := 2024 |};
     {| e_id := 2; e_date := "2024-03-20"; e_category := "Food";
        e_subcategory := "Food (Groceries)"; e_amount := 200;
        e_person := "Vanessa"; e_description := None; e_account := "Checking";
        e_cleared := false; e_month := "03"; e_year := 2024 |};
     {| e_id := 3; e_date := "2024-03-21"; e_category := "Home";
        e_subcategory := "Kitchen"; e_amount := 30;
        e_person := "Joint"; e_description := None; e_account := "Checking";
        e_cleared := true; e_month := "03"; e_year := 2024 |}]
    3.

(** Plans for December 2024. *)
Definition december_plans : database :=
  update_budget_plan
    (update_budget_plan empty_database "12" 2024 "Food" "Food (Groceries)" 500)
    "12" 2024 "Utilities" "PSEG" 120.

Definition checking_account : investment_account :=
  {| a_id := 2; account_name := "Checking"; account_type := "Cash";
     liquidity := "Liquid"; current_balance := 250; previous_balance := 250;
     last_updated := "2024-02-01"; a_person := Some "Joint";
     institution := Some "Bank of America" |}.

Definition two_accounts : database :=
  with_investment_accounts empty_database
    [{| a_id := 1; account_name := "Emergency Fund"; account_type := "Savings";
        liquidity := "Liquid"; current_balance := 1000; previous_balance := 1000;
        last_updated := "2024-02-01"; a_person := Some "Joint";
        institution := Some "Bank of America" |};
     checking_account].

Definition vacation_goal : savings_goal :=
  {| g_id := 1; g_name := "Vacation"; target_amount := 3000;
     current_amount := 0; monthly_contribution := 0;
     target_date := Some "2025-06-01"; priority := 1; is_active := true |}.

Definition one_goal : database :=
  with_savings_goals empty_database [vacation_goal].

(** [float] on the strings that are unsigned integer literals; [None] on
    every other string.  It stands in for the builtin in the examples. *)
Definition float_of_digits (s : string) : option Q :=
  inject_Z <$> PyStr.int_unsigned s.

(** A line of an expenses file with all its columns. *)
Definition expense_line (date amount : string) : csv_row :=
  list_to_map
    [("Date", Some date); ("Category", Some "Food");
     ("Sub Category", Some "Food (Groceries)"); ("Amount", Some amount);
     ("Person", Some "Jeff"); ("Description", Some "");
     ("Account", Some "Checking"); ("Cleared", Some "True")].

(** ** Further notions for the properties of the operations *)

(** The primary keys: the ids of the income and of the expense rows are
    distinct and none is above the counter of its table. *)
Definition keys_fresh (db : database) : Prop :=
  NoDup (map i_id (income db))
  /\ Forall (fun r => (i_id r <= seq_income db)%Z) (income db)
  /\ NoDup (map e_id (expenses db))
  /\ Forall (fun r => (e_id r <= seq_expenses db)%Z) (expenses db).

(** The character occurs in the string. *)
Fixpoint has_char (c : ascii) (s : string) : bool :=
  match s with
  | EmptyString => false
  | String d r => Ascii.eqb d c || has_char c r
  end.

(** A database with one income row (id 1) and one expense row (id 1). *)
Definition march_ledger : database :=
  with_income
    (with_expenses empty_database
       [{| e_id := 1; e_date := "2024-03-20"; e_category := "Food";
           e_subcategory := "Food (Groceries)"; e_amount := 40;
           e_person := "Jeff"; e_description := None; e_account := "Checking";
           e_cleared := true; e_month := "03"; e_year := 2024 |}]
       1)
    [{| i_id := 1; i_date := "2024-03-15"; i_source := "Salary";
        i_amount := 3000; i_person := "Jeff"; i_account := "Checking";
        i_description := None; i_is_transfer := false; i_from_account := None;
        i_month := "03"; i_year := 2024 |}]
    1.


Definition groceries_data (date : string) : expense_data :=
  {| de_date := date; de_category := "Food";
     de_subcategory := "Food (Groceries)"; de_amount := 45;
     de_person := "Jeff"; de_description := None; de_account := "Checking";
     de_cleared := true |}.

(** The expense rows of a period in one category. *)
Definition expenses_in_category (db : database) (month : string) (year : Z)
    (category : string) : list expense_row :=
  List.filter
    (fun r => in_period month year (e_month r) (e_year r)
              && String.eqb (e_category r) category)
    (expenses db).


(** The income rows of a period. *)
Definition income_in_period (db : database) (month : string) (year : Z)
    : list income_row :=
  List.filter (fun r => in_period month year (i_month r) (i_year r)) (income db).

(** The investment accounts of a liquidity tier; any liquidity other than
    'Liquid' and 'Semi-Liquid' counts as non-liquid. *)
Definition is_liquid (r : investment_account) : bool :=
  String.eqb (liquidity r) "Liquid".

Definition is_semi_liquid (r : investment_account) : bool :=
  String.eqb (liquidity r) "Semi-Liquid".

Definition is_non_liquid (r : investment_account) : bool :=
  negb (is_liquid r) && negb (is_semi_liquid r).

(** The account is counted for the person: its [person] column is the
    name, and the name is not empty. *)
Definition owned_by (person : string) (r : investment_account) : bool :=
  match truthy (a_person r) with
  | Some q => String.eqb q person
  | None => false
  end.

Section CsvImportNotions.

Variable py_float : string -> option Q.
Variable now : string.

(** The numbers of the rows of a file that raise, the first row of [rows]
    having the number [position]. *)
Fixpoint failing_rows (data_type : string) (rows : list csv_row) (db : database)
    (position : nat) : list nat :=
  match rows with
  | [] => []
  | row :: rest =>
      match import_row py_float now data_type db row with
      | Ok db' => failing_rows data_type rest db' (S position)
      | Raise _ => position :: failing_rows data_type rest db (S position)
      end
  end.

End CsvImportNotions.

(** The summaries of a year, and those of its months other than one. *)
Definition summaries_of_year (t : monthly_summaries) (year : Z)
    : list monthly_summary_row :=
  List.filter (fun r => (s_year r =? year)%Z) (summary_rows t).

Definition other_months_of_year (t : monthly_summaries) (month : string) (year : Z)
    : list monthly_summary_row :=
  List.filter (fun r => (s_year r =? year)%Z && negb (String.eqb (s_month r) month))
    (summary_rows t).

(** Summaries for March 2024 and April 2024. *)
Definition spring_summaries : monthly_summaries :=
  {| summary_rows :=
       [{| s_id := 1; s_month := "03"; s_year := 2024; s_total_income := 3000;
           s_total_expenses := 2500; s_total_saved := 500; s_net_worth := 0;
           s_budget_variance := 0; s_savings_rate := 16; s_notes := "" |};
        {| s_id := 2; s_month := "04"; s_year := 2024; s_total_income := 3100;
           s_total_expenses := 2000; s_total_saved := 1100; s_net_worth := 0;
           s_budget_variance := 0; s_savings_rate := 35; s_notes := "" |}];
     seq_monthly_summary := 2 |}.

Definition april_again : summary_data :=
  {| sd_total_income := Some 3200; sd_total_expenses := Some 2100;
     sd_total_saved := None; sd_net_worth := None; sd_budget_variance := None;
     sd_savings_rate := Some 34; sd_notes := None |}.

(** * Properties *)

(** ** Dates: the month and year columns *)

Section Dates.

Local Open Scope Z_scope.

Lemma digit_not_dash c : PyStr.is_digit c = true -> Ascii.eqb c "-" = false.
Proof. destruct c as [[] [] [] [] [] [] [] []]; (discriminate || reflexivity). Qed.

Lemma digit_not_plus c : PyStr.is_digit c = true -> Ascii.eqb c "+" = false.
Proof. destruct c as [[] [] [] [] [] [] [] []]; (discriminate || reflexivity). Qed.

Lemma digit_not_space c : PyStr.is_digit c = true -> PyStr.is_space c = false.
Proof. destruct c as [[] [] [] [] [] [] [] []]; (discriminate || reflexivity). Qed.

(** A digit is no sign: a stripped string that starts with one is read
    as an unsigned literal. *)
Lemma int_digit_head s c r :
  PyStr.is_digit c = true ->
  PyStr.strip s = String c r ->
  PyStr.int s = PyStr.int_unsigned (String c r).
Proof.
  intros Hc Hs. unfold PyStr.int. rewrite Hs.
  destruct c as [[] [] [] [] [] [] [] []]; (discriminate Hc || reflexivity).
Qed.

(** The strings [is_iso_date] accepts, spelled out. *)
Lemma iso_date_shape date :
  is_iso_date date = true ->
  exists y1 y2 y3 y4 m1 m2 d1 d2,
    date = String y1 (String y2 (String y3 (String y4 (String "-"
             (String m1 (String m2 (String "-" (String d1 (String d2 "")))))))))
    /\ Forall (fun c => PyStr.is_digit c = true) [y1; y2; y3; y4; m1; m2; d1; d2].
Proof.
  intros H.
  destruct date as [|y1 [|y2 [|y3 [|y4 [|s1 rest]]]]]; try discriminate H.
  destruct s1 as [[] [] [] [] [] [] [] []]; try discriminate H.
  destruct rest as [|m1 [|m2 [|s2 rest]]]; try discriminate H.
  destruct s2 as [[] [] [] [] [] [] [] []]; try discriminate H.
  destruct rest as [|d1 [|d2 [|? ?]]]; try discriminate H.
  cbn [is_iso_date] in H.
  do 7 (apply andb_prop in H; destruct H as [H ?]).
  exists y1, y2, y3, y4, m1, m2, d1, d2.
  split; [reflexivity | repeat constructor; assumption].
Qed.

(** On a date of the ISO shape the derivation raises nothing and yields
    the [MM] substring and the number the [YYYY] prefix denotes. *)
Lemma month_year_of_iso date :
  is_iso_date date = true ->
  month_year_of date = Ok (month_part date, year_part date).
Proof.
  intros H. apply iso_date_shape in H.
  destruct H as (y1 & y2 & y3 & y4 & m1 & m2 & d1 & d2 & -> & Hd).
  repeat match goal with
         | H : Forall _ (_ :: _) |- _ => inversion H; clear H; subst
         end.
  unfold month_year_of, month_part, year_part, decimal_value.
  cbn [PyStr.split substring decimal_value_from].
  rewrite !digit_not_dash by assumption.
  change (Ascii.eqb "-" "-") with true. cbv iota.
  rewrite !digit_not_dash by assumption.
  change (Ascii.eqb "-" "-") with true. cbv iota.
  destruct (PyStr.split "-" (String d1 (String d2 ""))) as [|p ps] eqn:Hs.
  { cbn in Hs. rewrite !digit_not_dash in Hs by assumption. discriminate Hs. }
  rewrite (int_digit_head _ y1 (String y2 (String y3 (String y4 "")))).
  2: assumption.
  2: { unfold PyStr.strip. cbn [PyStr.lstrip].
       rewrite (digit_not_space y1) by assumption.
       cbn [PyStr.rstrip]. rewrite !digit_not_space by assumption.
       reflexivity. }
  cbn [PyStr.int_unsigned PyStr.int_digits].
  repeat match goal with
         | H : PyStr.is_digit ?c = true |- _ => rewrite H; clear H
         end.
  rewrite Z.mul_0_r, Z.add_0_l. reflexivity.
Qed.

(** C2. For a date of the form YYYY-MM-DD, [add_expense] and [add_income]
    raise nothing and append one row under the next id; the row stores
    the date, the two-character MM substring as its month and the integer
    value of the YYYY prefix as its year. *)
Theorem add_stores_month_and_year db date :
  is_iso_date date = true ->
  (forall category subcategory amount person description account cleared,
      add_expense db date category subcategory amount person description
        account cleared
      = Ok (with_expenses db
              (expenses db ++
                 [{| e_id := seq_expenses db + 1; e_date := date;
                     e_category := category; e_subcategory := subcategory;
                     e_amount := amount; e_person := person;
                     e_description := description; e_account := account;
                     e_cleared := cleared;
                     e_month := substring 5 2 date;
                     e_year := decimal_value (substring 0 4 date) |}])
              (seq_expenses db + 1),
            seq_expenses db + 1))
  /\ (forall source amount person account description is_transfer from_account,
      add_income db date source amount person account description
        is_transfer from_account
      = Ok (with_income db
              (income db ++
                 [{| i_id := seq_income db + 1; i_date := date;
                     i_source := source; i_amount := amount;
                     i_person := person; i_account := account;
                     i_description := description;
                     i_is_transfer := is_transfer;
                     i_from_account := from_account;
                     i_month := substring 5 2 date;
                     i_year := decimal_value (substring 0 4 date) |}])
              (seq_income db + 1),
            seq_income db + 1)).
Proof.
  intros H. split; intros; unfold add_expense, add_income;
    rewrite (month_year_of_iso _ H); reflexivity.
Qed.

(** The example of the specification: 2024-03-15 gives month "03" and
    year 2024. *)
Lemma add_stores_month_and_year_2024_03_15 :
  is_iso_date "2024-03-15" = true
  /\ substring 5 2 "2024-03-15" = "03"
  /\ decimal_value (substring 0 4 "2024-03-15") = 2024
  /\ (add_expense empty_database "2024-03-15" "Food" "Gas" 40 "Jeff" None
        "Checking" true
      = Ok (with_expenses empty_database
              [{| e_id := 1; e_date := "2024-03-15"; e_category := "Food";
                  e_subcategory := "Gas"; e_amount := 40; e_person := "Jeff";
                  e_description := None; e_account := "Checking";
                  e_cleared := true; e_month := "03"; e_year := 2024 |}]
              1,
            1)).
Proof.
  split; [reflexivity|]. split; [reflexivity|]. split; [reflexivity|].
  apply (add_stores_month_and_year empty_database "2024-03-15").
  reflexivity.
Defined.

(** *** The columns stay in sync *)








End Dates.

(** ** Monthly summary *)

Section Monthly.

Local Open Scope Q_scope.

Lemma fold_left_Qplus xs : forall a, fold_left Qplus xs a == a + Qsum xs.
Proof.
  induction xs as [|x xs IH]; intros a.
  - change (a == a + 0). ring.
  - change (fold_left Qplus xs (a + x) == a + (x + Qsum xs)).
    rewrite IH. ring.
Qed.

(** Python's [sum] computes the mathematical sum. *)
Lemma py_sum_Qsum xs : py_sum xs == Qsum xs.
Proof. unfold py_sum. rewrite fold_left_Qplus. ring. Qed.

Lemma Qsum_Permutation xs ys : Permutation xs ys -> Qsum xs == Qsum ys.
Proof.
  induction 1 as [|x xs ys _ IH|x y xs|xs ys zs _ IH1 _ IH2].
  - reflexivity.
  - change (x + Qsum xs == x + Qsum ys). rewrite IH. reflexivity.
  - change (y + (x + Qsum xs) == x + (y + Qsum xs)). ring.
  - rewrite IH1. exact IH2.
Qed.

Lemma filter_Permutation {A} (f : A -> bool) xs ys :
  Permutation xs ys -> Permutation (List.filter f xs) (List.filter f ys).
Proof.
  induction 1 as [|x xs ys _ IH|x y xs|xs ys zs _ IH1 _ IH2]; cbn.
  - constructor.
  - destruct (f x); [constructor|]; exact IH.
  - destruct (f x), (f y); try reflexivity. constructor.
  - etransitivity; eassumption.
Qed.

Lemma filter_filter {A} (f g : A -> bool) xs :
  List.filter g (List.filter f xs) = List.filter (fun x => f x && g x) xs.
Proof.
  induction xs as [|x xs IH]; cbn; [reflexivity|].
  destruct (f x); cbn; [destruct (g x)|]; rewrite ?IH; reflexivity.
Qed.

(** The total of the selected income rows that pass a further test is the
    sum over the rows of the table that are in the period and pass it: the
    order of the selection does not matter. *)
Lemma selected_income_total db month year (keep : income_row -> bool) :
  py_sum (map i_amount (List.filter keep (select_income db month year)))
  == Qsum (map i_amount
             (List.filter
                (fun r => in_period month year (i_month r) (i_year r) && keep r)
                (income db))).
Proof.
  rewrite py_sum_Qsum. apply Qsum_Permutation, Permutation_map.
  rewrite <- filter_filter. apply filter_Permutation.
  unfold select_income. apply merge_sort_Permutation.
Qed.

(** C7. In the summary of [get_monthly_data], [total_income] is the sum of
    the amounts of the period's income rows that are no transfers, and
    [transfer_in] the sum of the amounts of those that are. *)
Theorem monthly_income_excludes_transfers db month year :
  total_income (md_summary (get_monthly_data db month year))
  == Qsum (map i_amount
             (List.filter
                (fun r => in_period month year (i_month r) (i_year r)
                          && negb (i_is_transfer r))
                (income db)))
  /\ transfer_in (md_summary (get_monthly_data db month year))
     == Qsum (map i_amount
                (List.filter
                   (fun r => in_period month year (i_month r) (i_year r)
                             && i_is_transfer r)
                   (income db))).
Proof.
  split; cbn [get_monthly_data md_summary total_income transfer_in];
    apply selected_income_total.
Qed.

End Monthly.

(** ** Budget versus actual *)

Section BudgetVsActual.

Local Open Scope Q_scope.

Implicit Types comparison : gmap string (gmap string comparison_entry).

Lemma inner_lookup comparison cat subcat :
  default ∅ (comparison !! cat) !! subcat = entry_of comparison cat subcat.
Proof.
  unfold entry_of. destruct (comparison !! cat); cbn; [done | apply lookup_empty].
Qed.

(** Writing [comparison[cat][subcat]] changes that entry and no other. *)
Lemma entry_of_insert comparison cat subcat e c s :
  entry_of (<[cat := <[subcat := e]> (default ∅ (comparison !! cat))]> comparison) c s
  = if decide (cat = c /\ subcat = s) then Some e else entry_of comparison c s.
Proof.
  destruct (decide (cat = c)) as [->|Hc].
  - unfold entry_of at 1. rewrite lookup_insert_eq. cbn.
    destruct (decide (subcat = s)) as [->|Hs].
    + rewrite lookup_insert_eq, decide_True by done. done.
    + rewrite lookup_insert_ne, decide_False by tauto. apply inner_lookup.
  - unfold entry_of. rewrite lookup_insert_ne, decide_False by tauto. done.
Qed.

Lemma entry_of_add_planned comparison row c s :
  entry_of (add_planned comparison row) c s
  = if decide (b_category row = c /\ b_subcategory row = s)
    then Some (planned_entry (planned_amount row))
    else entry_of comparison c s.
Proof. apply entry_of_insert. Qed.

Lemma entry_of_add_actual comparison cat subcat act c s :
  entry_of (add_actual comparison (cat, subcat, act)) c s
  = if decide (cat = c /\ subcat = s)
    then Some (actual_entry (entry_of comparison c s) act)
    else entry_of comparison c s.
Proof.
  unfold add_actual. rewrite entry_of_insert, inner_lookup.
  destruct (decide (cat = c /\ subcat = s)) as [[-> ->]|]; done.
Qed.

(** The first loop: when every planned row of the pair carries the amount
    [p], and there is one, the pair ends with the entry of [p]. *)
Lemma planned_loop rows c s p : forall comparison,
  (forall r, In r rows -> b_category r = c -> b_subcategory r = s ->
             planned_amount r = p) ->
  (exists r, In r rows /\ b_category r = c /\ b_subcategory r = s) ->
  entry_of (fold_left add_planned rows comparison) c s = Some (planned_entry p).
Proof.
  induction rows as [|r rows IH]; intros comparison Hall Hex.
  - destruct Hex as (r & [] & _).
  - cbn [fold_left].
    destruct (List.existsb
                (fun r' => String.eqb (b_category r') c
                           && String.eqb (b_subcategory r') s) rows) eqn:E.
    + apply IH.
      * intros r' Hr'. apply Hall. right. exact Hr'.
      * apply List.existsb_exists in E. destruct E as (r' & Hr' & E).
        apply andb_prop in E. destruct E as [E1 E2].
        apply String.eqb_eq in E1, E2. eauto.
    + assert (forall comparison',
                entry_of (fold_left add_planned rows comparison') c s
                = entry_of comparison' c s) as Hkeep.
      { clear -E. induction rows as [|r' rows IH]; intros comparison'; [done|].
        cbn in E. apply orb_false_elim in E. destruct E as [E1 E2].
        cbn [fold_left]. rewrite (IH E2), entry_of_add_planned.
        rewrite decide_False; [done|]. intros [<- <-].
        rewrite !String.eqb_refl in E1. discriminate. }
      rewrite Hkeep, entry_of_add_planned.
      destruct Hex as (r' & [<-|Hr'] & Hc & Hs).
      * rewrite decide_True by done. rewrite (Hall r); auto. left; reflexivity.
      * exfalso. apply not_true_iff_false in E. apply E.
        apply List.existsb_exists. exists r'. split; [exact Hr'|].
        rewrite Hc, Hs, !String.eqb_refl. reflexivity.
Qed.

(** The second loop leaves a pair without a total as the first loop made
    it. *)
Lemma actual_loop_other groups c s : forall comparison,
  (forall act, ~ In (c, s, act) groups) ->
  entry_of (fold_left add_actual groups comparison) c s = entry_of comparison c s.
Proof.
  induction groups as [|[[cat subcat] act] groups IH]; intros comparison Hno; [done|].
  cbn [fold_left]. rewrite IH.
  - rewrite entry_of_add_actual. rewrite decide_False; [done|].
    intros [-> ->]. apply (Hno act). left; reflexivity.
  - intros a Ha. apply (Hno a). right; exact Ha.
Qed.

(** Every group of the totals comes from a row. *)
Lemma group_add_key cat subcat x gs c s act :
  In (c, s, act) (group_add cat subcat x gs) ->
  (c = cat /\ s = subcat) \/ exists act', In (c, s, act') gs.
Proof.
  induction gs as [|[[c0 s0] t0] gs IH]; cbn [group_add].
  - intros [E|[]]. inversion E; subst. left; done.
  - destruct (String.eqb c0 cat && String.eqb s0 subcat) eqn:E.
    + apply andb_prop in E. destruct E as [E1 E2].
      apply String.eqb_eq in E1, E2. subst.
      intros [H|H].
      * inversion H; subst. left; done.
      * right. exists act. right; exact H.
    + intros [H|H].
      * right. exists act. left; exact H.
      * destruct (IH H) as [?|[act' ?]]; [left; done|].
        right. exists act'. right; done.
Qed.

Lemma group_fold_key rows c s act : forall gs,
  In (c, s, act)
    (fold_left
       (fun gs r => group_add (e_category r) (e_subcategory r) (e_amount r) gs)
       rows gs) ->
  (exists r, In r rows /\ e_category r = c /\ e_subcategory r = s)
  \/ exists act', In (c, s, act') gs.
Proof.
  induction rows as [|r rows IH]; intros gs H.
  - right. exists act. exact H.
  - cbn [fold_left] in H. destruct (IH _ H) as [(r' & Hr' & Hk)|[act' H']].
    + left. exists r'. split; [right; exact Hr' | exact Hk].
    + destruct (group_add_key _ _ _ _ _ _ _ H') as [[-> ->]|Hgs].
      * left. exists r. split; [left; reflexivity | done].
      * right. exact Hgs.
Qed.

Lemma expense_totals_key db month year c s act :
  In (c, s, act) (expense_totals db month year) ->
  expenses_of db month year c s <> [].
Proof.
  intros H. apply group_fold_key in H.
  destruct H as [(r & Hr & Hc & Hs)|[act' []]].
  apply List.filter_In in Hr. destruct Hr as [Hr Hp].
  assert (In r (expenses_of db month year c s)) as Hin.
  { apply List.filter_In. split; [exact Hr|].
    rewrite Hp, Hc, Hs, !String.eqb_refl. reflexivity. }
  intros E. rewrite E in Hin. exact Hin.
Qed.

(** Under the [UNIQUE] constraint two planned rows of one period and pair
    are one row. *)
Lemma plans_unique_amount db month year c s r1 r2 :
  plans_unique db ->
  In r1 (select_plans db month year) -> In r2 (select_plans db month year) ->
  b_category r1 = c -> b_subcategory r1 = s ->
  b_category r2 = c -> b_subcategory r2 = s ->
  planned_amount r1 = planned_amount r2.
Proof.
  unfold plans_unique, select_plans, in_period.
  intros Hu H1 H2 Hc1 Hs1 Hc2 Hs2.
  apply List.filter_In in H1, H2. destruct H1 as [H1 P1], H2 as [H2 P2].
  apply andb_prop in P1, P2. destruct P1 as [M1 Y1], P2 as [M2 Y2].
  apply String.eqb_eq in M1, M2. apply Z.eqb_eq in Y1, Y2.
  assert (plan_key r1 = plan_key r2) as Hk.
  { unfold plan_key. congruence. }
  clear -Hu H1 H2 Hk.
  induction (budget_plans db) as [|r rows IH]; [destruct H1|].
  cbn in Hu. apply NoDup_cons in Hu. destruct Hu as [Hnot Hu].
  destruct H1 as [<-|H1], H2 as [<-|H2].
  - reflexivity.
  - exfalso. apply Hnot. rewrite Hk. apply list_elem_of_In, in_map, H2.
  - exfalso. apply Hnot. rewrite <- Hk. apply list_elem_of_In, in_map, H1.
  - exact (IH Hu H1 H2).
Qed.

(** The first loop leaves a pair without a planned row as it was. *)
Lemma planned_loop_other rows c s : forall comparison,
  (forall r, In r rows -> ~ (b_category r = c /\ b_subcategory r = s)) ->
  entry_of (fold_left add_planned rows comparison) c s = entry_of comparison c s.
Proof.
  induction rows as [|r rows IH]; intros comparison Hno; [done|].
  cbn [fold_left]. rewrite IH.
  - rewrite entry_of_add_planned. rewrite decide_False; [done|].
    apply Hno. left; reflexivity.
  - intros r' Hr'. apply Hno. right; exact Hr'.
Qed.

Lemma pair_eqb_spec (c s c' s' : string) :
  reflect (c = c' /\ s = s') (String.eqb c c' && String.eqb s s').
Proof.
  destruct (String.eqb_spec c c'), (String.eqb_spec s s'); constructor; tauto.
Qed.

(** [group_add] adds [x] to the total of its pair, or starts it. *)
Lemma total_of_group_add cat subcat x gs c s :
  total_of (group_add cat subcat x gs) c s
  = if decide (cat = c /\ subcat = s)
    then Some (match total_of gs c s with Some t => t + x | None => x end)
    else total_of gs c s.
Proof.
  induction gs as [|[[c0 s0] t0] gs IH]; cbn [group_add total_of].
  - destruct (pair_eqb_spec cat subcat c s); case_decide; tauto || done.
  - destruct (pair_eqb_spec c0 s0 cat subcat) as [[-> ->]|Hne]; cbn [total_of].
    + destruct (pair_eqb_spec cat subcat c s); case_decide; tauto || done.
    + rewrite IH.
      destruct (pair_eqb_spec c0 s0 c s) as [[-> ->]|]; [|done].
      rewrite decide_False; [done|]. intros [-> ->]. tauto.
Qed.

Lemma total_of_In gs c s t : total_of gs c s = Some t -> In (c, s, t) gs.
Proof.
  induction gs as [|[[c0 s0] t0] gs IH]; cbn [total_of]; [done|].
  destruct (pair_eqb_spec c0 s0 c s) as [[-> ->]|].
  - intros [= ->]. left; reflexivity.
  - intros H. right. exact (IH H).
Qed.

(** The pairs of the totals stay distinct. *)
Lemma group_add_distinct cat subcat x gs :
  NoDup (map (fun g : group_row => (g.1.1, g.1.2)) gs) ->
  NoDup (map (fun g : group_row => (g.1.1, g.1.2)) (group_add cat subcat x gs)).
Proof.
  induction gs as [|[[c0 s0] t0] gs IH]; cbn [group_add map]; intros Hu.
  - apply NoDup_singleton.
  - apply NoDup_cons in Hu. destruct Hu as [Hnot Hu].
    destruct (pair_eqb_spec c0 s0 cat subcat) as [[-> ->]|Hne]; cbn [map].
    + apply NoDup_cons. split; assumption.
    + apply NoDup_cons. split; [|exact (IH Hu)].
      cbn in *. intros Hin. apply list_elem_of_In, in_map_iff in Hin.
      destruct Hin as ([[c1 s1] t1] & E & Hin). cbn in E. inversion E; subst.
      destruct (group_add_key _ _ _ _ _ _ _ Hin) as [[-> ->]|[t' Hin']]; [tauto|].
      apply Hnot, list_elem_of_In.
      apply (in_map (fun g : group_row => (g.1.1, g.1.2)) _ _ Hin').
Qed.

Lemma expense_totals_distinct db month year :
  NoDup (map (fun g : group_row => (g.1.1, g.1.2)) (expense_totals db month year)).
Proof.
  unfold expense_totals.
  generalize (List.filter
                (fun r => in_period month year (e_month r) (e_year r))
                (expenses db)).
  intros rows.
  assert (NoDup (map (fun g : group_row => (g.1.1, g.1.2)) [])) as H0
    by constructor.
  revert H0. generalize (@nil group_row).
  induction rows as [|r rows IH]; intros gs Hu; [exact Hu|].
  cbn [fold_left]. apply IH, group_add_distinct, Hu.
Qed.

(** The second loop, on totals of distinct pairs: a pair with a total gets
    it merged once into what the first loop left. *)
Lemma actual_loop groups c s : forall comparison,
  NoDup (map (fun g : group_row => (g.1.1, g.1.2)) groups) ->
  entry_of (fold_left add_actual groups comparison) c s
  = match total_of groups c s with
    | Some act => Some (actual_entry (entry_of comparison c s) act)
    | None => entry_of comparison c s
    end.
Proof.
  induction groups as [|[[c0 s0] t0] groups IH]; intros comparison Hu; [done|].
  cbn [map] in Hu. apply NoDup_cons in Hu. destruct Hu as [Hnot Hu].
  cbn [fold_left total_of].
  destruct (pair_eqb_spec c0 s0 c s) as [[-> ->]|Hne].
  - rewrite actual_loop_other.
    + rewrite entry_of_add_actual, decide_True by done. done.
    + intros act Hin. apply Hnot, list_elem_of_In.
      apply (in_map (fun g : group_row => (g.1.1, g.1.2)) _ _ Hin).
  - rewrite (IH _ Hu), entry_of_add_actual, decide_False by done. done.
Qed.

(** The total of a pair is the sum of the amounts of its rows. *)
Lemma group_fold_total rows c s : forall gs,
  total_of
    (fold_left
       (fun gs r => group_add (e_category r) (e_subcategory r) (e_amount r) gs)
       rows gs) c s
  = fold_left
      (fun acc x => Some (match acc with Some t => t + x | None => x end))
      (map e_amount
         (List.filter
            (fun r => String.eqb (e_category r) c && String.eqb (e_subcategory r) s)
            rows))
      (total_of gs c s).
Proof.
  induction rows as [|r rows IH]; intros gs; [done|].
  cbn [fold_left List.filter]. rewrite IH, total_of_group_add.
  destruct (pair_eqb_spec (e_category r) (e_subcategory r) c s);
    case_decide; tauto || done.
Qed.

Lemma expenses_of_period db month year c s :
  expenses_of db month year c s
  = List.filter
      (fun r => String.eqb (e_category r) c && String.eqb (e_subcategory r) s)
      (List.filter (fun r => in_period month year (e_month r) (e_year r))
         (expenses db)).
Proof.
  unfold expenses_of. rewrite filter_filter. apply List.filter_ext.
  intros r. rewrite andb_assoc. reflexivity.
Qed.

Lemma expense_totals_total db month year c s :
  expenses_of db month year c s <> [] ->
  exists act,
    total_of (expense_totals db month year) c s = Some act
    /\ act == Qsum (map e_amount (expenses_of db month year c s)).
Proof.
  rewrite expenses_of_period. unfold expense_totals.
  rewrite group_fold_total. cbn [total_of].
  destruct (List.filter _ (List.filter _ _)) as [|r rows]; [done|]. intros _.
  cbn [map fold_left].
  assert (forall xs t,
            fold_left
              (fun acc y => Some (match acc with Some u => u + y | None => y end))
              xs (Some t)
            = Some (fold_left Qplus xs t)) as Hfold.
  { induction xs as [|y ys IH]; intros t; [done|]. cbn [fold_left]. apply IH. }
  rewrite Hfold. eexists. split; [reflexivity|].
  rewrite fold_left_Qplus. reflexivity.
Qed.

(** What the code computes for a pair that has expenses: with a planned
    row, the variance is the planned amount minus the actual total and the
    percentage is filled in for a positive planned amount; without one, the
    planned amount is 0 and the variance minus the actual total. *)
Lemma budget_vs_actual_with_expenses db month year c s :
  plans_unique db ->
  expenses_of db month year c s <> [] ->
  exists act,
    act == Qsum (map e_amount (expenses_of db month year c s))
    /\ ((forall r, In r (select_plans db month year) ->
                   ~ (b_category r = c /\ b_subcategory r = s)) ->
        entry_of (get_budget_vs_actual db month year) c s
        = Some {| planned := 0; actual := act; variance := - act;
                  percentage := 0 |})
    /\ (forall r, In r (select_plans db month year) ->
                  b_category r = c -> b_subcategory r = s ->
        entry_of (get_budget_vs_actual db month year) c s
        = Some {| planned := planned_amount r; actual := act;
                  variance := planned_amount r - act;
                  percentage :=
                    if Qgtb (planned_amount r) 0
                    then (act / planned_amount r) * 100 else 0 |}).
Proof.
  intros Hu Hsome.
  destruct (expense_totals_total db month year c s Hsome) as (act & Htotal & Hsum).
  exists act. split; [exact Hsum|].
  unfold get_budget_vs_actual.
  rewrite (actual_loop _ c s _ (expense_totals_distinct db month year)), Htotal.
  split.
  - intros Hno. rewrite planned_loop_other by exact Hno. reflexivity.
  - intros r Hr Hc Hs.
    rewrite (planned_loop _ c s (planned_amount r)).
    + reflexivity.
    + intros r' Hr' Hc' Hs'.
      apply (plans_unique_amount db month year c s); assumption.
    + exists r. auto.
Qed.

(** C10. A (category, subcategory) with a planned amount [p] and no
    expense of the period gets the entry planned = p, actual = 0,
    variance = 0, percentage = 0: the variance stays 0. *)
Theorem plan_without_expenses db month year c s p :
  plans_unique db ->
  (exists r, In r (budget_plans db) /\ b_month r = month /\ b_year r = year
             /\ b_category r = c /\ b_subcategory r = s
             /\ planned_amount r = p) ->
  expenses_of db month year c s = [] ->
  entry_of (get_budget_vs_actual db month year) c s
  = Some {| planned := p; actual := 0; variance := 0; percentage := 0 |}.
Proof.
  intros Hu (r & Hr & Hm & Hy & Hc & Hs & Hp) Hnone.
  assert (In r (select_plans db month year)) as Hsel.
  { apply List.filter_In. split; [exact Hr|].
    unfold in_period. rewrite Hm, Hy, String.eqb_refl, Z.eqb_refl. reflexivity. }
  unfold get_budget_vs_actual. rewrite actual_loop_other.
  - apply planned_loop.
    + intros r' Hr' Hc' Hs'. rewrite <- Hp.
      apply (plans_unique_amount db month year c s); assumption.
    + exists r. auto.
  - intros act Hact. apply expense_totals_key in Hact. contradiction.
Qed.

(** The groceries plan of March 2024 with no expense in the month. *)
Lemma plan_without_expenses_groceries :
  plans_unique groceries_planned
  /\ expenses_of groceries_planned "03" 2024 "Food" "Food (Groceries)" = []
  /\ entry_of (get_budget_vs_actual groceries_planned "03" 2024)
       "Food" "Food (Groceries)"
     = Some {| planned := 500; actual := 0; variance := 0; percentage := 0 |}.
Proof.
  assert (plans_unique groceries_planned) as Hu by apply NoDup_singleton.
  split; [exact Hu|]. split; [reflexivity|].
  apply (plan_without_expenses groceries_planned "03" 2024
           "Food" "Food (Groceries)" 500 Hu).
  - eexists. split; [left; reflexivity|]. repeat split; reflexivity.
  - reflexivity.
Defined.

(** C1. Not every entry has variance = planned - actual: for a plan of 500
    with no expense in the period the code returns planned = 500,
    actual = 0 and variance = 0, where planned - actual is 500. *)
Theorem plan_only_variance_differs :
  exists entry,
    entry_of (get_budget_vs_actual groceries_planned "03" 2024)
      "Food" "Food (Groceries)" = Some entry
    /\ planned entry == 500
    /\ actual entry == 0
    /\ variance entry == 0
    /\ ~ variance entry == planned entry - actual entry.
Proof.
  eexists. split; [vm_compute; reflexivity|].
  cbn [planned actual variance].
  repeat split; try reflexivity. intros H. discriminate H.
Qed.

(** The example of the specification: a plan of 500 and expenses of 600
    give variance -100 and percentage 120; the kitchen expense of 30 that
    has no plan gives planned 0 and variance -30. *)
Lemma overspent_groceries_example :
  (exists entry,
      entry_of (get_budget_vs_actual groceries_overspent "03" 2024)
        "Food" "Food (Groceries)" = Some entry
      /\ planned entry == 500 /\ actual entry == 600
      /\ variance entry == -100 /\ percentage entry == 120)
  /\ entry_of (get_budget_vs_actual groceries_overspent "03" 2024) "Home" "Kitchen"
     = Some {| planned := 0; actual := 30; variance := -30; percentage := 0 |}.
Proof.
  split; [|vm_compute; reflexivity].
  eexists. split; [vm_compute; reflexivity|].
  cbn [planned actual variance percentage]. repeat split; reflexivity.
Qed.

End BudgetVsActual.

(** ** Investment accounts and net worth *)

Section NetWorth.

Local Open Scope Q_scope.

Lemma month_over_month_fold rows : forall s,
  month_over_month_change (fold_left add_account rows s)
  == month_over_month_change s
     + Qsum (map (fun r => current_balance r - previous_balance r) rows).
Proof.
  induction rows as [|r rows IH]; intros s.
  - change (month_over_month_change s == month_over_month_change s + 0). ring.
  - cbn [fold_left map]. rewrite IH.
    change (Qsum (?x :: ?xs)) with (x + Qsum xs).
    cbn [add_account month_over_month_change]. ring.
Qed.

(** The month-over-month change is the sum of the differences between the
    current and the previous balance of the accounts. *)
Lemma month_over_month_sum db :
  month_over_month_change (get_net_worth_summary db)
  == Qsum (map (fun r => current_balance r - previous_balance r)
             (investment_accounts db)).
Proof.
  cbn [get_net_worth_summary month_over_month_change].
  rewrite month_over_month_fold. cbn [net_worth_zero month_over_month_change]. ring.
Qed.

(** Under the [UNIQUE] constraint the row of a name is found by that name. *)
Lemma find_account rows a :
  NoDup (map account_name rows) -> In a rows ->
  List.find (fun r => String.eqb (account_name r) (account_name a)) rows = Some a.
Proof.
  induction rows as [|r rows IH]; intros Hu Hin; [destruct Hin|].
  cbn in Hu. apply NoDup_cons in Hu. destruct Hu as [Hnot Hu].
  cbn [List.find]. destruct Hin as [->|Hin].
  - rewrite String.eqb_refl. reflexivity.
  - destruct (String.eqb_spec (account_name r) (account_name a)) as [E|E].
    + exfalso. apply Hnot. rewrite E. apply list_elem_of_In, in_map, Hin.
    + exact (IH Hu Hin).
Qed.

Lemma find_map_account (set : investment_account -> investment_account) name rows :
  (forall r, account_name (set r) = account_name r) ->
  List.find (fun r => String.eqb (account_name r) name) (map set rows)
  = set <$> List.find (fun r => String.eqb (account_name r) name) rows.
Proof.
  intros Hset. induction rows as [|r rows IH]; [reflexivity|].
  cbn [map List.find]. rewrite Hset.
  destruct (String.eqb (account_name r) name); [reflexivity | exact IH].
Qed.

(** The differences after an update of the account [a], when no other
    account moved. *)
Lemma differences_after_update rows a (new_balance previous : Q) now :
  NoDup (map account_name rows) -> In a rows ->
  (forall r, In r rows -> account_name r <> account_name a ->
             current_balance r = previous_balance r) ->
  Qsum (map (fun r => current_balance r - previous_balance r)
          (map (fun r =>
                  if String.eqb (account_name r) (account_name a) then
                    {| a_id := a_id r; account_name := account_name r;
                       account_type := account_type r; liquidity := liquidity r;
                       current_balance := new_balance;
                       previous_balance := previous;
                       last_updated := now; a_person := a_person r;
                       institution := institution r |}
                  else r) rows))
  == new_balance - previous.
Proof.
  intros Hu Hin Hrest.
  assert (forall rows',
            (forall r, In r rows' -> account_name r <> account_name a) ->
            (forall r, In r rows' -> current_balance r = previous_balance r) ->
            Qsum (map (fun r => current_balance r - previous_balance r)
                    (map (fun r =>
                            if String.eqb (account_name r) (account_name a) then
                              {| a_id := a_id r; account_name := account_name r;
                                 account_type := account_type r;
                                 liquidity := liquidity r;
                                 current_balance := new_balance;
                                 previous_balance := previous;
                                 last_updated := now; a_person := a_person r;
                                 institution := institution r |}
                            else r) rows')) == 0) as Hzero.
  { induction rows' as [|r rows' IH]; intros Hne Heq; [reflexivity|].
    cbn [map]. change (Qsum (?x :: ?xs)) with (x + Qsum xs).
    setoid_rewrite IH.
    2: intros r' Hr'; apply Hne; right; exact Hr'.
    2: intros r' Hr'; apply Heq; right; exact Hr'.
    destruct (String.eqb_spec (account_name r) (account_name a)) as [E|_].
    - exfalso. apply (Hne r); [left; reflexivity | exact E].
    - rewrite (Heq r) by (left; reflexivity). ring. }
  induction rows as [|r rows IH]; [destruct Hin|].
  cbn in Hu. apply NoDup_cons in Hu. destruct Hu as [Hnot Hu].
  cbn [map]. change (Qsum (?x :: ?xs)) with (x + Qsum xs).
  destruct Hin as [->|Hin].
  - rewrite String.eqb_refl. cbn [current_balance previous_balance].
    setoid_rewrite Hzero.
    + ring.
    + intros r Hr E. apply Hnot. rewrite <- E. apply list_elem_of_In, in_map, Hr.
    + intros r Hr. apply Hrest; [right; exact Hr|].
      intros E. apply Hnot. rewrite <- E. apply list_elem_of_In, in_map, Hr.
  - destruct (String.eqb_spec (account_name r) (account_name a)) as [E|E].
    + exfalso. apply Hnot. rewrite E. apply list_elem_of_In, in_map, Hin.
    + setoid_rewrite IH.
      * rewrite (Hrest r); [ring | left; reflexivity | exact E].
      * exact Hu.
      * exact Hin.
      * intros r' Hr' E'. apply Hrest; [right; exact Hr' | exact E'].
Qed.

(** C4. For an account [a] of the table, [update_investment_account] leaves
    under its name the row of [a] with [previous_balance] set to the
    current balance [a] had and [current_balance] set to the new balance;
    and when every other account has equal current and previous balances,
    the month-over-month change of the net worth summary is then the new
    balance minus the old current balance. *)
Theorem update_investment_account_rolls_balance db name new_balance now a :
  account_names_unique db ->
  In a (investment_accounts db) ->
  account_name a = name ->
  let db' := update_investment_account db name new_balance now in
  List.find (fun r => String.eqb (account_name r) name) (investment_accounts db')
  = Some {| a_id := a_id a; account_name := account_name a;
            account_type := account_type a; liquidity := liquidity a;
            current_balance := new_balance;
            previous_balance := current_balance a;
            last_updated := now; a_person := a_person a;
            institution := institution a |}
  /\ ((forall r, In r (investment_accounts db) -> account_name r <> name ->
                 current_balance r = previous_balance r) ->
      month_over_month_change (get_net_worth_summary db')
      == new_balance - current_balance a).
Proof.
  intros Hu Hin <- db'. subst db'. unfold update_investment_account.
  rewrite (find_account _ a Hu Hin).
  cbn [with_investment_accounts investment_accounts]. split.
  - rewrite find_map_account.
    + rewrite (find_account _ a Hu Hin). cbn. rewrite String.eqb_refl. reflexivity.
    + intros r. destruct (String.eqb (account_name r) (account_name a)); reflexivity.
  - intros Hrest. rewrite month_over_month_sum.
    cbn [with_investment_accounts investment_accounts].
    apply differences_after_update; assumption.
Qed.

(** The checking account goes from 250 to 300 while the emergency fund
    stays put: the change of the month is 50. *)
Lemma update_checking_example :
  account_names_unique two_accounts
  /\ In checking_account (investment_accounts two_accounts)
  /\ (let db' := update_investment_account two_accounts "Checking" 300 "2024-03-01" in
      List.find (fun r => String.eqb (account_name r) "Checking")
        (investment_accounts db')
      = Some {| a_id := 2; account_name := "Checking"; account_type := "Cash";
                liquidity := "Liquid"; current_balance := 300;
                previous_balance := 250; last_updated := "2024-03-01";
                a_person := Some "Joint";
                institution := Some "Bank of America" |}
      /\ month_over_month_change (get_net_worth_summary db') == 300 - 250).
Proof.
  assert (account_names_unique two_accounts) as Hu.
  { unfold account_names_unique. cbn. apply NoDup_cons. split.
    - intros H. apply list_elem_of_In in H. destruct H as [H|[]]. discriminate H.
    - apply NoDup_singleton. }
  assert (In checking_account (investment_accounts two_accounts)) as Hin
    by (right; left; reflexivity).
  split; [exact Hu|]. split; [exact Hin|].
  destruct (update_investment_account_rolls_balance two_accounts "Checking" 300
              "2024-03-01" checking_account Hu Hin eq_refl) as [Hrow Hchange].
  split; [exact Hrow|]. apply Hchange.
  intros r [<-|[<-|[]]] Hne; [reflexivity|]. exfalso. apply Hne. reflexivity.
Defined.

End NetWorth.

(** ** Budget plans *)

Section Plans.

Local Open Scope Z_scope.

Lemma same_plan_key_spec month year category subcategory r :
  same_plan_key month year category subcategory r = true
  <-> plan_key r = (month, year, category, subcategory).
Proof.
  unfold same_plan_key, plan_key. rewrite !andb_true_iff.
  rewrite !String.eqb_eq, Z.eqb_eq. split.
  - intros [[[-> ->] ->] ->]. reflexivity.
  - intros E. inversion E. auto.
Qed.

(** The upsert keeps the [UNIQUE] constraint. *)
Lemma update_budget_plan_unique db month year category subcategory amount :
  plans_unique db ->
  plans_unique (update_budget_plan db month year category subcategory amount).
Proof.
  unfold plans_unique, update_budget_plan. cbn [with_budget_plans budget_plans].
  intros Hu. rewrite map_app. apply NoDup_app. split; [|split].
  - induction (budget_plans db) as [|r rows IH]; [constructor|].
    cbn in Hu. apply NoDup_cons in Hu. destruct Hu as [Hnot Hu].
    cbn [List.filter]. destruct (negb _); [|exact (IH Hu)].
    cbn. apply NoDup_cons. split; [|exact (IH Hu)].
    intros Hin. apply Hnot. apply list_elem_of_In in Hin. apply list_elem_of_In.
    apply in_map_iff in Hin. destruct Hin as (r' & E & Hr').
    apply List.filter_In in Hr'. rewrite <- E. apply in_map, Hr'.
  - intros k Hk Hk'. cbn in Hk'. apply list_elem_of_In in Hk, Hk'.
    destruct Hk' as [<-|[]].
    apply in_map_iff in Hk. destruct Hk as (r & E & Hr).
    apply List.filter_In in Hr. destruct Hr as [_ Hr].
    apply negb_true_iff, not_true_iff_false in Hr. apply Hr.
    apply same_plan_key_spec. exact E.
  - cbn. apply NoDup_singleton.
Qed.










End Plans.

(** ** Savings goals *)

Section Goals.

Local Open Scope Q_scope.


Lemma goal_by_id_map db (f : savings_goal -> savings_goal) goal_id :
  (forall g, g_id (f g) = g_id g) ->
  goal_by_id (with_savings_goals db (map f (savings_goals db))) goal_id
  = f <$> goal_by_id db goal_id.
Proof.
  intros Hf. unfold goal_by_id. cbn [with_savings_goals savings_goals].
  induction (savings_goals db) as [|g goals IH]; [reflexivity|].
  cbn [map List.find]. rewrite Hf.
  destruct (g_id g =? goal_id)%Z; [reflexivity | exact IH].
Qed.

(** A contribution adds its amount to the amount the goal holds. *)
Lemma contribution_adds db goal_id amount :
  goal_by_id (update_savings_goal_contribution db goal_id amount) goal_id
  = (fun g => set_current_amount g (current_amount g + amount))
      <$> goal_by_id db goal_id.
Proof.
  unfold update_savings_goal_contribution. rewrite goal_by_id_map.
  - unfold goal_by_id. destruct (List.find _ _) as [g|] eqn:E; [|reflexivity].
    apply List.find_some in E. destruct E as [_ E]. cbn. rewrite E. reflexivity.
  - intros g. destruct (g_id g =? goal_id)%Z; reflexivity.
Qed.






End Goals.

(** ** CSV import *)

Section ImportProperties.

Variable py_float : string -> option Q.
Variable now : string.

(** Rows that raise nothing are all counted, and no error is recorded. *)
Lemma import_rows_all_ok data_type rows : forall db,
  (forall row, In row rows ->
     forall d, is_ok (import_row py_float now data_type d row) = true) ->
  exists db',
    forall imported errors,
      import_rows py_float now data_type rows db imported errors
      = (db', (imported + length rows)%nat, errors).
Proof.
  induction rows as [|row rows IH]; intros db Hok.
  - exists db. intros imported errors. cbn. rewrite Nat.add_0_r. reflexivity.
  - pose proof (Hok row (or_introl eq_refl) db) as Hrow.
    destruct (import_row py_float now data_type db row) as [db1|e] eqn:E;
      [|discriminate Hrow].
    destruct (IH db1) as (db' & Hrest).
    { intros row' Hin. apply Hok. right. exact Hin. }
    exists db'. intros imported errors. cbn [import_rows]. rewrite E, Hrest.
    cbn [length]. rewrite Nat.add_succ_r. reflexivity.
Qed.

(** A row whose Amount cell is no number raises [ValueError] before
    anything is written. *)
Lemma import_row_bad_amount data_type db row s :
  data_type = "expenses" \/ data_type = "income" ->
  row !! "Amount" = Some (Some s) ->
  py_float s = None ->
  import_row py_float now data_type db row = Raise ValueError.
Proof.
  intros [-> | ->] Hcell Hs; unfold import_row; cbn [String.eqb Ascii.eqb];
    [unfold import_expense | unfold import_income];
    unfold row_amount; rewrite Hcell, Hs; reflexivity.
Qed.

(** C3. When the third of N rows has an Amount that is no number and every
    other row imports, [import_csv_data] for expenses or income reports
    success, N - 1 imported rows and the single error of row 3, and the
    database it leaves is the one the other rows alone would leave: the
    rows after the third are still imported. *)
Theorem import_continues_past_bad_row data_type db r1 r2 bad rest s :
  data_type = "expenses" \/ data_type = "income" ->
  bad !! "Amount" = Some (Some s) ->
  py_float s = None ->
  (forall row, In row (r1 :: r2 :: rest) ->
     forall d, is_ok (import_row py_float now data_type d row) = true) ->
  exists db',
    import_csv_data py_float now db (Ok (r1 :: r2 :: bad :: rest)) data_type
    = (db', Imported (length (r1 :: r2 :: bad :: rest) - 1) [(3%nat, ValueError)])
    /\ success (Imported (length (r1 :: r2 :: bad :: rest) - 1) [(3%nat, ValueError)])
       = true
    /\ import_csv_data py_float now db (Ok (r1 :: r2 :: rest)) data_type
       = (db', Imported (length (r1 :: r2 :: rest)) []).
Proof.
  intros Htype Hcell Hs Hok.
  pose proof (Hok r1 (or_introl eq_refl) db) as H1.
  destruct (import_row py_float now data_type db r1) as [db1|] eqn:E1;
    [|discriminate H1].
  pose proof (Hok r2 (or_intror (or_introl eq_refl)) db1) as H2.
  destruct (import_row py_float now data_type db1 r2) as [db2|] eqn:E2;
    [|discriminate H2].
  destruct (import_rows_all_ok data_type rest db2) as (db' & Hrest).
  { intros row Hin. apply Hok. right. right. exact Hin. }
  exists db'. unfold import_csv_data. cbn [import_rows].
  rewrite E1, E2.
  rewrite (import_row_bad_amount data_type db2 bad s Htype Hcell Hs).
  rewrite !Hrest. cbn [length app Nat.add Nat.sub].
  repeat split; reflexivity.
Qed.

Lemma import_rows_other_type data_type rows : forall db imported errors,
  data_type <> "expenses" -> data_type <> "income" ->
  import_rows py_float now data_type rows db imported errors
  = (db, (imported + length rows)%nat, errors).
Proof.
  intros db imported errors He Hi. revert imported.
  induction rows as [|row rows IH]; intros imported.
  - cbn. rewrite Nat.add_0_r. reflexivity.
  - cbn [import_rows]. unfold import_row.
    apply String.eqb_neq in He, Hi. rewrite He, Hi.
    rewrite IH. cbn [length]. rewrite Nat.add_succ_r. reflexivity.
Qed.

(** C9. For a [data_type] other than 'expenses' and 'income' the import of
    N rows reports success, N imported rows and no error, and leaves the
    database as it was. *)
Theorem import_other_type_counts_rows data_type db rows :
  data_type <> "expenses" ->
  data_type <> "income" ->
  import_csv_data py_float now db (Ok rows) data_type
  = (db, Imported (length rows) [])
  /\ success (Imported (length rows) []) = true.
Proof.
  intros He Hi. unfold import_csv_data.
  rewrite import_rows_other_type by assumption. split; reflexivity.
Qed.

End ImportProperties.

(** Four expense lines, the third with the amount "abc". *)
Lemma import_four_lines_example :
  exists db',
    import_csv_data float_of_digits "2024-03-31" empty_database
      (Ok [expense_line "2024-03-01" "12"; expense_line "2024-03-02" "7";
           expense_line "2024-03-03" "abc"; expense_line "2024-03-04" "30"])
      "expenses"
    = (db', Imported 3 [(3%nat, ValueError)])
    /\ success (Imported 3 [(3%nat, ValueError)]) = true
    /\ import_csv_data float_of_digits "2024-03-31" empty_database
         (Ok [expense_line "2024-03-01" "12"; expense_line "2024-03-02" "7";
              expense_line "2024-03-04" "30"])
         "expenses"
       = (db', Imported 3 []).
Proof.
  apply (import_continues_past_bad_row float_of_digits "2024-03-31" "expenses"
           empty_database
           (expense_line "2024-03-01" "12") (expense_line "2024-03-02" "7")
           (expense_line "2024-03-03" "abc") [expense_line "2024-03-04" "30"]
           "abc").
  - left. reflexivity.
  - reflexivity.
  - reflexivity.
  - intros row [<-|[<-|[<-|[]]]] d; reflexivity.
Defined.

(** The same lines imported as 'assets': nothing is written. *)
Lemma import_as_assets_example :
  import_csv_data float_of_digits "2024-03-31" empty_database
    (Ok [expense_line "2024-03-01" "12"; expense_line "2024-03-03" "abc"])
    "assets"
  = (empty_database, Imported 2 [])
  /\ success (Imported 2 []) = true.
Proof.
  apply (import_other_type_counts_rows float_of_digits "2024-03-31" "assets"
           empty_database
           [expense_line "2024-03-01" "12"; expense_line "2024-03-03" "abc"]).
  - discriminate.
  - discriminate.
Defined.

(** ** Income and expense rows: keys, deletions and malformed dates *)

Section Transactions.

Local Open Scope Z_scope.

Lemma filter_all {A} (f : A -> bool) xs :
  (forall x, In x xs -> f x = true) -> List.filter f xs = xs.
Proof.
  induction xs as [|x xs IH]; intros H; [reflexivity|].
  cbn [List.filter]. rewrite (H x (or_introl eq_refl)).
  f_equal. apply IH. intros y Hy. apply H. right. exact Hy.
Qed.

Lemma map_unchanged {A} (f : A -> A) xs :
  (forall x, In x xs -> f x = x) -> map f xs = xs.
Proof.
  induction xs as [|x xs IH]; intros H; [reflexivity|].
  cbn [map]. rewrite (H x (or_introl eq_refl)).
  f_equal. apply IH. intros y Hy. apply H. right. exact Hy.
Qed.

Lemma with_income_same db : with_income db (income db) (seq_income db) = db.
Proof. destruct db. reflexivity. Qed.

Lemma with_expenses_same db : with_expenses db (expenses db) (seq_expenses db) = db.
Proof. destruct db. reflexivity. Qed.

(** Deleting an id that no row has changes nothing. *)
Theorem delete_missing_id db id :
  ((forall r, In r (income db) -> i_id r <> id) -> delete_income db id = db)
  /\ ((forall r, In r (expenses db) -> e_id r <> id) -> delete_expense db id = db).
Proof.
  split; intros H; unfold delete_income, delete_expense.
  - rewrite filter_all; [apply with_income_same|].
    intros r Hr. apply negb_true_iff, Z.eqb_neq, H, Hr.
  - rewrite filter_all; [apply with_expenses_same|].
    intros r Hr. apply negb_true_iff, Z.eqb_neq, H, Hr.
Qed.

Lemma delete_missing_id_example :
  delete_income march_ledger 7 = march_ledger
  /\ delete_expense march_ledger 7 = march_ledger.
Proof.
  destruct (delete_missing_id march_ledger 7) as [Hi He]. split.
  - apply Hi. intros r [<-|[]]. discriminate.
  - apply He. intros r [<-|[]]. discriminate.
Defined.



(** A row that was just added is removed again by deleting the id the
    addition returned: the table is as before, and only the counter keeps
    the id, so that it is not handed out twice. *)
Theorem add_then_delete db :
  (forall date source amount person account description is_transfer
          from_account db1 id,
      Forall (fun r => i_id r <= seq_income db) (income db) ->
      add_income db date source amount person account description is_transfer
        from_account = Ok (db1, id) ->
      id = seq_income db + 1
      /\ delete_income db1 id = with_income db (income db) id)
  /\ (forall date category subcategory amount person description account
            cleared db1 id,
      Forall (fun r => e_id r <= seq_expenses db) (expenses db) ->
      add_expense db date category subcategory amount person description
        account cleared = Ok (db1, id) ->
      id = seq_expenses db + 1
      /\ delete_expense db1 id = with_expenses db (expenses db) id).
Proof.
  split; intros until id; intros Hb Hadd;
    unfold add_income, add_expense in Hadd;
    destruct (month_year_of date) as [[m y]|]; try discriminate Hadd;
    cbn in Hadd; inversion Hadd; subst; clear Hadd;
    (split; [reflexivity|]);
    unfold delete_income, delete_expense; cbn;
    rewrite List.filter_app; cbn; rewrite Z.eqb_refl; cbn;
    rewrite app_nil_r; rewrite filter_all; try reflexivity;
    intros r Hr; rewrite List.Forall_forall in Hb; apply Hb in Hr;
    apply negb_true_iff, Z.eqb_neq; lia.
Qed.

Lemma add_then_delete_example :
  Forall (fun r => i_id r <= seq_income march_ledger) (income march_ledger)
  /\ exists db1,
       add_income march_ledger "2024-03-31" "Bonus" 500 "Jeff" "Checking" None
         false None = Ok (db1, 2)
       /\ 2 = seq_income march_ledger + 1
       /\ delete_income db1 2 = with_income march_ledger (income march_ledger) 2.
Proof.
  assert (Forall (fun r => i_id r <= seq_income march_ledger)
            (income march_ledger)) as Hb.
  { repeat constructor. cbn. lia. }
  split; [exact Hb|].
  eexists. split; [reflexivity|].
  exact (proj1 (add_then_delete march_ledger) "2024-03-31" "Bonus" 500%Q "Jeff"
           "Checking" None false None _ 2 Hb eq_refl).
Defined.

Lemma NoDup_map_filter {A B} (f : A -> B) (p : A -> bool) xs :
  NoDup (map f xs) -> NoDup (map f (List.filter p xs)).
Proof.
  induction xs as [|x xs IH]; cbn [map List.filter]; intros Hu; [exact Hu|].
  apply NoDup_cons in Hu. destruct Hu as [Hnot Hu].
  destruct (p x); [|exact (IH Hu)].
  cbn [map]. apply NoDup_cons. split; [|exact (IH Hu)].
  intros Hin. apply Hnot. apply list_elem_of_In in Hin. apply list_elem_of_In.
  apply in_map_iff in Hin. destruct Hin as (y & E & Hy).
  apply List.filter_In in Hy. rewrite <- E. apply in_map, Hy.
Qed.

Lemma Forall_filter_keep {A} (P : A -> Prop) (p : A -> bool) xs :
  Forall P xs -> Forall P (List.filter p xs).
Proof.
  rewrite !List.Forall_forall. intros H x Hx.
  apply List.filter_In in Hx. apply H, Hx.
Qed.

Lemma NoDup_snoc_fresh (ids : list Z) (bound : Z) :
  NoDup ids -> Forall (fun i => i <= bound) ids -> NoDup (ids ++ [bound + 1]).
Proof.
  intros Hu Hb. apply NoDup_app. split; [exact Hu|]. split.
  - intros i Hi Hi'. apply list_elem_of_In in Hi, Hi'.
    destruct Hi' as [<-|[]].
    rewrite List.Forall_forall in Hb. apply Hb in Hi. lia.
  - apply NoDup_singleton.
Qed.

Lemma apply_operation_keys db op db' :
  keys_fresh db -> apply_operation db op = Ok db' -> keys_fresh db'.
Proof.
  intros (Hui & Hbi & Hue & Hbe) Hop.
  destruct op; cbn [apply_operation] in Hop.
  - unfold add_income in Hop.
    destruct (month_year_of date) as [[m y]|]; [|discriminate Hop].
    cbn in Hop. inversion Hop; subst; clear Hop.
    unfold keys_fresh. cbn. rewrite map_app. cbn [map i_id].
    split; [|split; [|split]]; try assumption.
    + apply NoDup_snoc_fresh; [exact Hui|].
      apply List.Forall_map. exact Hbi.
    + apply Forall_app. split.
      * eapply List.Forall_impl; [|exact Hbi]. cbn. intros r Hr. lia.
      * repeat constructor. cbn. lia.
  - unfold add_expense in Hop.
    destruct (month_year_of date) as [[m y]|]; [|discriminate Hop].
    cbn in Hop. inversion Hop; subst; clear Hop.
    unfold keys_fresh. cbn. rewrite map_app. cbn [map e_id].
    split; [|split; [|split]]; try assumption.
    + apply NoDup_snoc_fresh; [exact Hue|].
      apply List.Forall_map. exact Hbe.
    + apply Forall_app. split.
      * eapply List.Forall_impl; [|exact Hbe]. cbn. intros r Hr. lia.
      * repeat constructor. cbn. lia.
  - unfold update_income in Hop.
    destruct (month_year_of _) as [[m y]|]; [|discriminate Hop].
    cbn in Hop. inversion Hop; subst; clear Hop.
    unfold keys_fresh. cbn.
    split; [|split; [|split]]; try assumption.
    + rewrite map_map. erewrite map_ext; [exact Hui|].
      intros r. cbn. destruct (i_id r =? income_id); reflexivity.
    + apply List.Forall_map. eapply List.Forall_impl; [|exact Hbi].
      intros r Hr. cbn. destruct (i_id r =? income_id); exact Hr.
  - unfold update_expense in Hop.
    destruct (month_year_of _) as [[m y]|]; [|discriminate Hop].
    cbn in Hop. inversion Hop; subst; clear Hop.
    unfold keys_fresh. cbn.
    split; [|split; [|split]]; try assumption.
    + rewrite map_map. erewrite map_ext; [exact Hue|].
      intros r. cbn. destruct (e_id r =? expense_id); reflexivity.
    + apply List.Forall_map. eapply List.Forall_impl; [|exact Hbe].
      intros r Hr. cbn. destruct (e_id r =? expense_id); exact Hr.
  - inversion Hop; subst; clear Hop. unfold keys_fresh. cbn.
    split; [|split; [|split]]; try assumption.
    + apply NoDup_map_filter, Hui.
    + apply Forall_filter_keep, Hbi.
  - inversion Hop; subst; clear Hop. unfold keys_fresh. cbn.
    split; [|split; [|split]]; try assumption.
    + apply NoDup_map_filter, Hue.
    + apply Forall_filter_keep, Hbe.
Qed.

(** Whatever additions, updates and deletions are made, and whatever their
    dates, the ids of the income rows stay distinct and so do those of the
    expense rows, and no id is above the counter of its table. *)
Theorem keys_stay_fresh ops : forall db db',
  keys_fresh db -> run db ops = Ok db' -> keys_fresh db'.
Proof.
  induction ops as [|op rest IH]; intros db db' Hk Hrun.
  - inversion Hrun; subst. exact Hk.
  - cbn [run] in Hrun.
    destruct (apply_operation db op) as [db1|] eqn:E; [|discriminate Hrun].
    apply (IH db1 db'); [|exact Hrun].
    apply (apply_operation_keys db op db1 Hk E).
Qed.

Lemma keys_stay_fresh_example :
  keys_fresh march_ledger
  /\ exists db',
       run march_ledger
         [AddIncome "2024-03-31" "Bonus" 500 "Jeff" "Checking" None false None;
          DeleteIncome 1;
          AddIncome "2024-4-1" "Refund" 20 "Jeff" "Checking" None false None;
          UpdateExpense 1 (groceries_data "2024-03-22")] = Ok db'
       /\ keys_fresh db'.
Proof.
  assert (keys_fresh march_ledger) as Hk.
  { unfold keys_fresh. cbn.
    repeat split; try apply NoDup_singleton; repeat constructor; cbn; lia. }
  split; [exact Hk|].
  match goal with |- exists db', ?r = Ok db' /\ _ => destruct r as [db'|] eqn:E end.
  - exists db'. split; [reflexivity|]. exact (keys_stay_fresh _ _ _ Hk E).
  - vm_compute in E. discriminate E.
Defined.

(** *** Malformed dates *)


Lemma split_without_separator c s :
  has_char c s = false -> PyStr.split c s = [s].
Proof.
  induction s as [|d r IH]; cbn [PyStr.split has_char]; [reflexivity|].
  intros H. apply orb_false_elim in H. destruct H as [Hd Hr].
  rewrite Hd, (IH Hr). reflexivity.
Qed.


Lemma month_year_of_no_dash date :
  has_char "-" date = false -> month_year_of date = Raise IndexError.
Proof.
  intros H. unfold month_year_of. rewrite (split_without_separator _ _ H).
  reflexivity.
Qed.


(** A date without a dash makes every addition and update raise
    [IndexError]; nothing is written. *)
Theorem date_without_dash_raises db date :
  has_char "-" date = false ->
  (forall source amount person account description is_transfer from_account,
      add_income db date source amount person account description is_transfer
        from_account = Raise IndexError)
  /\ (forall category subcategory amount person description account cleared,
        add_expense db date category subcategory amount person description
          account cleared = Raise IndexError)
  /\ (forall id data, di_date data = date ->
        update_income db id data = Raise IndexError)
  /\ (forall id data, de_date data = date ->
        update_expense db id data = Raise IndexError).
Proof.
  intros H. repeat split; intros;
    unfold add_income, add_expense, update_income, update_expense; subst;
    rewrite month_year_of_no_dash by assumption; reflexivity.
Qed.

Lemma date_without_dash_example :
  has_char "-" "03/15/2024" = false
  /\ add_expense march_ledger "03/15/2024" "Food" "Gas" 40 "Jeff" None "Checking"
       true = Raise IndexError.
Proof.
  split; [reflexivity|].
  apply (date_without_dash_raises march_ledger "03/15/2024" eq_refl).
Defined.



End Transactions.

(** ** Monthly data: expense totals and the order of the rows *)

Section MonthlyTotals.

Local Open Scope Q_scope.

Lemma Qsum_app xs ys : Qsum (xs ++ ys) == Qsum xs + Qsum ys.
Proof.
  induction xs as [|x xs IH].
  - change (Qsum ys == 0 + Qsum ys). ring.
  - change (x + Qsum (xs ++ ys) == x + Qsum xs + Qsum ys). rewrite IH. ring.
Qed.




(** *** Totals kept in a dictionary *)

Lemma Qsum_cons x xs : Qsum (x :: xs) = x + Qsum xs.
Proof. reflexivity. Qed.

Lemma Qsum_nil : Qsum [] = 0.
Proof. reflexivity. Qed.

(** The idiom [if k not in d: d[k] = 0] followed by [d[k] += x], run over a
    list of rows: a key that no row has is left alone, and a key that some
    row has ends with what it held (0 when absent) plus the values of its
    rows. *)
Lemma accumulate_lookup {A} (key : A -> string) (val : A -> Q)
    (step : gmap string Q -> A -> gmap string Q) rows k :
  (forall d r, step d r = <[key r := default 0 (d !! key r) + val r]> d) ->
  forall totals : gmap string Q,
    match List.filter (fun r => String.eqb (key r) k) rows with
    | [] => fold_left step rows totals !! k = totals !! k
    | hits =>
        exists v, fold_left step rows totals !! k = Some v
                  /\ v == default 0 (totals !! k) + Qsum (map val hits)
    end.
Proof.
  intros Hstep.
  induction rows as [|r rows IH]; intros totals; [reflexivity|].
  cbn [fold_left List.filter]. rewrite Hstep.
  specialize (IH (<[key r := default 0 (totals !! key r) + val r]> totals)).
  destruct (String.eqb_spec (key r) k) as [E|E].
  - rewrite E in *. rewrite lookup_insert_eq in IH. cbn [default] in IH.
    destruct (List.filter _ rows) as [|h hits].
    + rewrite IH. eexists. split; [reflexivity|].
      cbn [map]. rewrite Qsum_cons, Qsum_nil. unfold id. ring.
    + destruct IH as (v & Hv & Hsum). exists v. split; [exact Hv|].
      rewrite Hsum. cbn [map]. rewrite !Qsum_cons. unfold id. ring.
  - rewrite lookup_insert_ne in IH by exact E. exact IH.
Qed.

Lemma add_category_total_step (ct : gmap string Q) (row : group_row) :
  add_category_total ct row
  = <[row.1.1 := default 0 (ct !! row.1.1) + row.2]> ct.
Proof. destruct row as [[c s] t]. reflexivity. Qed.

(** The totals of the groups of one category add up to the amounts of the
    rows of the category. *)
Lemma group_add_category_sum cat subcat x gs c :
  Qsum (map snd (List.filter (fun g : group_row => String.eqb g.1.1 c)
                   (group_add cat subcat x gs)))
  == Qsum (map snd (List.filter (fun g : group_row => String.eqb g.1.1 c) gs))
     + (if String.eqb cat c then x else 0).
Proof.
  induction gs as [|[[c0 s0] t0] gs IH]; cbn [group_add].
  - cbn [List.filter fst snd]. destruct (String.eqb cat c);
      cbn [map snd]; rewrite ?Qsum_cons, ?Qsum_nil; ring.
  - destruct (pair_eqb_spec c0 s0 cat subcat) as [[-> ->]|Hne].
    + cbn [List.filter fst snd]. destruct (String.eqb cat c);
        cbn [map snd]; rewrite ?Qsum_cons; ring.
    + cbn [List.filter fst snd]. destruct (String.eqb c0 c);
        cbn [map snd]; rewrite ?Qsum_cons, IH; ring.
Qed.

Lemma group_fold_category_sum rows c : forall gs,
  Qsum (map snd
          (List.filter (fun g : group_row => String.eqb g.1.1 c)
             (fold_left
                (fun gs r =>
                   group_add (e_category r) (e_subcategory r) (e_amount r) gs)
                rows gs)))
  == Qsum (map snd (List.filter (fun g : group_row => String.eqb g.1.1 c) gs))
     + Qsum (map e_amount
               (List.filter (fun r => String.eqb (e_category r) c) rows)).
Proof.
  induction rows as [|r rows IH]; intros gs.
  - cbn [fold_left List.filter map]. rewrite Qsum_nil. ring.
  - cbn [fold_left List.filter]. rewrite IH, group_add_category_sum.
    destruct (String.eqb (e_category r) c); cbn [map];
      rewrite ?Qsum_cons; ring.
Qed.

Lemma expenses_in_category_period db month year c :
  expenses_in_category db month year c
  = List.filter (fun r => String.eqb (e_category r) c)
      (List.filter (fun r => in_period month year (e_month r) (e_year r))
         (expenses db)).
Proof. unfold expenses_in_category. rewrite filter_filter. reflexivity. Qed.

(** A category has groups exactly when it has rows. *)
Lemma groups_of_category db month year c :
  List.filter (fun g : group_row => String.eqb g.1.1 c)
    (expense_totals db month year) = []
  <-> expenses_in_category db month year c = [].
Proof.
  split; intros H.
  - destruct (expenses_in_category db month year c) as [|r rows] eqn:E;
      [reflexivity|]. exfalso.
    assert (In r (expenses_in_category db month year c)) as Hr
      by (rewrite E; left; reflexivity).
    apply List.filter_In in Hr. destruct Hr as [Hr Hp].
    apply andb_prop in Hp. destruct Hp as [Hp Hc]. apply String.eqb_eq in Hc.
    destruct (expense_totals_total db month year c (e_subcategory r))
      as (act & Ht & _).
    { intros E'.
      assert (In r (expenses_of db month year c (e_subcategory r))) as Hin.
      { apply List.filter_In. split; [exact Hr|].
        rewrite Hp, Hc, !String.eqb_refl. reflexivity. }
      rewrite E' in Hin. exact Hin. }
    apply total_of_In in Ht.
    assert (In (c, e_subcategory r, act)
              (List.filter (fun g : group_row => String.eqb g.1.1 c)
                 (expense_totals db month year))) as Hin.
    { apply List.filter_In. split; [exact Ht|]. cbn. apply String.eqb_refl. }
    rewrite H in Hin. exact Hin.
  - destruct (List.filter _ (expense_totals db month year))
      as [|[[c0 s0] t0] gs] eqn:E; [reflexivity|]. exfalso.
    assert (In (c0, s0, t0)
              (List.filter (fun g : group_row => String.eqb g.1.1 c)
                 (expense_totals db month year))) as Hin
      by (rewrite E; left; reflexivity).
    apply List.filter_In in Hin. destruct Hin as [Hin Hc].
    cbn in Hc. apply String.eqb_eq in Hc. subst c0.
    apply expense_totals_key in Hin. apply Hin.
    unfold expenses_of. rewrite <- filter_filter.
    fold (expenses_in_category db month year c). rewrite H. reflexivity.
Qed.

(** The category totals of a month: a category with no expense in the
    period has no total, and the total of any other category is the sum of
    the amounts of its expense rows of the period. *)
Theorem category_totals_are_sums db month year c :
  match expenses_in_category db month year c with
  | [] => category_totals (get_monthly_data db month year) !! c = None
  | rows =>
      exists v,
        category_totals (get_monthly_data db month year) !! c = Some v
        /\ v == Qsum (map e_amount rows)
  end.
Proof.
  cbn [get_monthly_data category_totals].
  pose proof (accumulate_lookup (fun g : group_row => g.1.1) snd
                add_category_total (expense_totals db month year) c
                add_category_total_step ∅) as Hacc.
  cbv beta in Hacc.
  pose proof (groups_of_category db month year c) as Hiff.
  pose proof (group_fold_category_sum
                (List.filter
                   (fun r => in_period month year (e_month r) (e_year r))
                   (expenses db)) c []) as Hsum.
  fold (expense_totals db month year) in Hsum.
  rewrite <- expenses_in_category_period in Hsum.
  destruct (expenses_in_category db month year c) as [|r rows].
  - rewrite (proj2 Hiff eq_refl) in Hacc. rewrite Hacc. apply lookup_empty.
  - destruct (List.filter _ (expense_totals db month year)) as [|g gs].
    + exfalso. destruct Hiff as [Hiff _]. discriminate (Hiff eq_refl).
    + destruct Hacc as (v & Hv & Hvsum). exists v. split; [exact Hv|].
      rewrite Hvsum, Hsum. rewrite lookup_empty. cbn [default List.filter map].
      rewrite Qsum_nil. unfold id. ring.
Qed.

(** Writing [d[cat][subcat]] in a dictionary of dictionaries changes that
    entry and no other. *)
Lemma nested_insert_lookup {V} (d : gmap string (gmap string V)) cat subcat v c s :
  (<[cat := <[subcat := v]> (default ∅ (d !! cat))]> d) !! c
    ≫= (fun inner => inner !! s)
  = if decide (cat = c /\ subcat = s) then Some v
    else d !! c ≫= (fun inner => inner !! s).
Proof.
  destruct (decide (cat = c)) as [->|Hc].
  - rewrite lookup_insert_eq. cbn. destruct (decide (subcat = s)) as [->|Hs].
    + rewrite lookup_insert_eq, decide_True by done. done.
    + rewrite lookup_insert_ne, decide_False by tauto.
      destruct (d !! c); cbn; [done | apply lookup_empty].
  - rewrite lookup_insert_ne, decide_False by tauto. done.
Qed.

Lemma subcategory_loop groups c s : forall st : gmap string (gmap string Q),
  NoDup (map (fun g : group_row => (g.1.1, g.1.2)) groups) ->
  fold_left add_subcategory_total groups st !! c ≫= (fun inner => inner !! s)
  = match total_of groups c s with
    | Some t => Some t
    | None => st !! c ≫= (fun inner => inner !! s)
    end.
Proof.
  induction groups as [|[[c0 s0] t0] groups IH]; intros st Hu; [done|].
  cbn [map] in Hu. apply NoDup_cons in Hu. destruct Hu as [Hnot Hu].
  cbn [fold_left total_of add_subcategory_total].
  rewrite (IH _ Hu), nested_insert_lookup.
  destruct (pair_eqb_spec c0 s0 c s) as [[-> ->]|Hne].
  - rewrite decide_True by done.
    destruct (total_of groups c s) as [t|] eqn:E; [|done].
    exfalso. apply Hnot, list_elem_of_In. apply total_of_In in E.
    apply (in_map (fun g : group_row => (g.1.1, g.1.2)) _ _ E).
  - rewrite decide_False by done. done.
Qed.

(** The subcategory totals of a month: a (category, subcategory) with no
    expense in the period has no total, and the total of any other is the
    sum of the amounts of its expense rows of the period. *)
Theorem subcategory_totals_are_sums db month year c s :
  match expenses_of db month year c s with
  | [] =>
      subcategory_totals (get_monthly_data db month year) !! c
        ≫= (fun inner => inner !! s) = None
  | rows =>
      exists v,
        subcategory_totals (get_monthly_data db month year) !! c
          ≫= (fun inner => inner !! s) = Some v
        /\ v == Qsum (map e_amount rows)
  end.
Proof.
  cbn [get_monthly_data subcategory_totals].
  rewrite (subcategory_loop _ c s ∅ (expense_totals_distinct db month year)).
  destruct (expenses_of db month year c s) as [|r rows] eqn:E.
  - destruct (total_of (expense_totals db month year) c s) as [t|] eqn:Et.
    + apply total_of_In, expense_totals_key in Et. contradiction.
    + rewrite lookup_empty. reflexivity.
  - destruct (expense_totals_total db month year c s) as (act & Ht & Hsum).
    { rewrite E. discriminate. }
    rewrite Ht. exists act. split; [reflexivity|]. rewrite Hsum, E. reflexivity.
Qed.

End MonthlyTotals.

(** ** Budget plans: reading, writing and copying *)

Section PlanQueries.

Local Open Scope Q_scope.

(** A pair that has neither a planned row nor an expense in the period has
    no entry in the comparison. *)
Theorem no_entry_without_plan_or_expense db month year c s :
  (forall r, In r (select_plans db month year) ->
             ~ (b_category r = c /\ b_subcategory r = s)) ->
  expenses_of db month year c s = [] ->
  entry_of (get_budget_vs_actual db month year) c s = None.
Proof.
  intros Hplan Hexp. unfold get_budget_vs_actual.
  rewrite actual_loop_other.
  - rewrite planned_loop_other by exact Hplan. reflexivity.
  - intros act Hact. apply expense_totals_key in Hact. contradiction.
Qed.

Lemma no_entry_example :
  entry_of (get_budget_vs_actual groceries_overspent "03" 2024) "Vacation" "Taxi"
  = None.
Proof.
  apply (no_entry_without_plan_or_expense groceries_overspent "03" 2024).
  - intros r [<-|[]] [H _]. discriminate H.
  - reflexivity.
Defined.

(** The plan and the expenses of March 2024 in the example: groceries were
    planned and bought, the kitchen expense had no plan. *)
Lemma budget_vs_actual_with_expenses_example :
  plans_unique groceries_overspent
  /\ expenses_of groceries_overspent "03" 2024 "Food" "Food (Groceries)" <> []
  /\ exists act,
       act == 600
       /\ entry_of (get_budget_vs_actual groceries_overspent "03" 2024)
            "Food" "Food (Groceries)"
          = Some {| planned := 500; actual := act; variance := 500 - act;
                    percentage := (act / 500) * 100 |}.
Proof.
  assert (plans_unique groceries_overspent) as Hu by apply NoDup_singleton.
  assert (expenses_of groceries_overspent "03" 2024 "Food" "Food (Groceries)"
          <> []) as Hne by discriminate.
  split; [exact Hu|]. split; [exact Hne|].
  destruct (budget_vs_actual_with_expenses groceries_overspent "03" 2024
              "Food" "Food (Groceries)" Hu Hne) as (act & Hact & _ & Hplanned).
  exists act. split; [exact Hact|].
  apply (Hplanned
           {| b_id := 1; b_month := "03"; b_year := 2024; b_category := "Food";
              b_subcategory := "Food (Groceries)"; planned_amount := 500 |});
    [left; reflexivity | reflexivity | reflexivity].
Defined.

(** *** [get_budget_plans] *)

Lemma plans_loop_other rows c s : forall plans,
  (forall r, In r rows -> ~ (b_category r = c /\ b_subcategory r = s)) ->
  fold_left add_plan rows plans !! c ≫= (fun inner => inner !! s)
  = plans !! c ≫= (fun inner => inner !! s).
Proof.
  induction rows as [|r rows IH]; intros plans Hno; [done|].
  cbn [fold_left]. rewrite IH.
  - unfold add_plan. rewrite nested_insert_lookup, decide_False; [done|].
    apply Hno. left; reflexivity.
  - intros r' Hr'. apply Hno. right; exact Hr'.
Qed.

Lemma plans_loop rows c s p : forall plans,
  (forall r, In r rows -> b_category r = c -> b_subcategory r = s ->
             planned_amount r = p) ->
  (exists r, In r rows /\ b_category r = c /\ b_subcategory r = s) ->
  fold_left add_plan rows plans !! c ≫= (fun inner => inner !! s) = Some p.
Proof.
  induction rows as [|r rows IH]; intros plans Hall Hex.
  - destruct Hex as (r & [] & _).
  - cbn [fold_left].
    destruct (List.existsb
                (fun r' => String.eqb (b_category r') c
                           && String.eqb (b_subcategory r') s) rows) eqn:E.
    + apply IH.
      * intros r' Hr'. apply Hall. right. exact Hr'.
      * apply List.existsb_exists in E. destruct E as (r' & Hr' & E).
        apply andb_prop in E. destruct E as [E1 E2].
        apply String.eqb_eq in E1, E2. eauto.
    + rewrite plans_loop_other.
      * unfold add_plan. rewrite nested_insert_lookup.
        destruct Hex as (r' & [<-|Hr'] & Hc & Hs).
        -- rewrite decide_True by done. rewrite (Hall r); auto. left; reflexivity.
        -- exfalso. apply not_true_iff_false in E. apply E.
           apply List.existsb_exists. exists r'. split; [exact Hr'|].
           rewrite Hc, Hs, !String.eqb_refl. reflexivity.
      * intros r' Hr' [Hc Hs]. apply not_true_iff_false in E. apply E.
        apply List.existsb_exists. exists r'. split; [exact Hr'|].
        rewrite Hc, Hs, !String.eqb_refl. reflexivity.
Qed.

(** What [get_budget_plans] holds for a pair, under the [UNIQUE]
    constraint: the planned amount of the row of the pair, if there is one. *)
Lemma get_budget_plans_lookup db month year c s :
  plans_unique db ->
  get_budget_plans db month year !! c ≫= (fun inner => inner !! s)
  = planned_amount
      <$> List.find
            (fun r => String.eqb (b_category r) c && String.eqb (b_subcategory r) s)
            (select_plans db month year).
Proof.
  intros Hu. unfold get_budget_plans.
  pose proof (merge_sort_Permutation plan_order (select_plans db month year))
    as Hperm.
  destruct (List.find _ (select_plans db month year)) as [r|] eqn:E.
  - apply List.find_some in E. destruct E as [Hr E].
    apply andb_prop in E. destruct E as [Hc Hs]. apply String.eqb_eq in Hc, Hs.
    cbn. apply plans_loop.
    + intros r' Hr' Hc' Hs'.
      apply (plans_unique_amount db month year c s); try assumption.
      apply (Permutation_in _ Hperm), Hr'.
    + exists r. split; [|auto].
      apply (Permutation_in _ (Permutation_sym Hperm)), Hr.
  - cbn. rewrite plans_loop_other; [rewrite lookup_empty; reflexivity|].
    intros r Hr [Hc Hs].
    apply (Permutation_in _ Hperm) in Hr.
    apply (List.find_none _ _ E) in Hr.
    rewrite Hc, Hs, !String.eqb_refl in Hr. discriminate Hr.
Qed.

Lemma find_app_first {A} (f : A -> bool) xs ys :
  List.find f (xs ++ ys)
  = match List.find f xs with
    | Some x => Some x
    | None => List.find f ys
    end.
Proof.
  induction xs as [|x xs IH]; [reflexivity|].
  cbn [app List.find]. destruct (f x); [reflexivity | exact IH].
Qed.

Lemma find_filter_implied {A} (f g : A -> bool) xs :
  (forall x, In x xs -> f x = true -> g x = true) ->
  List.find f (List.filter g xs) = List.find f xs.
Proof.
  induction xs as [|x xs IH]; intros H; [reflexivity|].
  cbn [List.filter List.find].
  destruct (f x) eqn:Ef.
  - rewrite (H x (or_introl eq_refl) Ef). cbn [List.find]. rewrite Ef. reflexivity.
  - destruct (g x); cbn [List.find]; rewrite ?Ef; apply IH;
      intros y Hy; apply H; right; exact Hy.
Qed.

Lemma filter_filter_implied {A} (f g : A -> bool) xs :
  (forall x, In x xs -> f x = true -> g x = true) ->
  List.filter f (List.filter g xs) = List.filter f xs.
Proof.
  induction xs as [|x xs IH]; intros H; [reflexivity|].
  cbn [List.filter].
  destruct (f x) eqn:Ef.
  - rewrite (H x (or_introl eq_refl) Ef). cbn [List.filter]. rewrite Ef.
    f_equal. apply IH. intros y Hy. apply H. right. exact Hy.
  - destruct (g x); cbn [List.filter]; rewrite ?Ef; apply IH;
      intros y Hy; apply H; right; exact Hy.
Qed.

(** The plans of a period other than the one written are as before. *)
Lemma update_budget_plan_other_period db month year category subcategory amount
    month' year' :
  (month', year') <> (month, year) ->
  select_plans (update_budget_plan db month year category subcategory amount)
    month' year'
  = select_plans db month' year'.
Proof.
  intros Hne. unfold select_plans, update_budget_plan.
  cbn [with_budget_plans budget_plans]. rewrite List.filter_app.
  cbn [List.filter b_month b_year].
  replace (in_period month' year' month year) with false.
  - rewrite app_nil_r. apply filter_filter_implied.
    intros r _ Hp. apply negb_true_iff, not_true_iff_false. intros Hk.
    apply same_plan_key_spec in Hk. unfold plan_key in Hk. inversion Hk; subst.
    unfold in_period in Hp. apply andb_prop in Hp. destruct Hp as [M Y].
    apply String.eqb_eq in M. apply Z.eqb_eq in Y. apply Hne. congruence.
  - symmetry. apply not_true_iff_false. intros Hp.
    unfold in_period in Hp. apply andb_prop in Hp. destruct Hp as [M Y].
    apply String.eqb_eq in M. apply Z.eqb_eq in Y. apply Hne. congruence.
Qed.

(** [update_budget_plan] and [get_budget_plans] round trip: the amount
    written for a pair is the amount read back, the other pairs of the
    period read as before, and so does every other period. *)
Theorem budget_plan_written_is_read db month year category subcategory amount :
  plans_unique db ->
  let db' := update_budget_plan db month year category subcategory amount in
  get_budget_plans db' month year !! category
    ≫= (fun inner => inner !! subcategory) = Some amount
  /\ (forall c s, (c, s) <> (category, subcategory) ->
        get_budget_plans db' month year !! c ≫= (fun inner => inner !! s)
        = get_budget_plans db month year !! c ≫= (fun inner => inner !! s))
  /\ (forall month' year', (month', year') <> (month, year) ->
        get_budget_plans db' month' year' = get_budget_plans db month' year').
Proof.
  intros Hu db'. subst db'.
  pose proof (update_budget_plan_unique db month year category subcategory
                amount Hu) as Hu'.
  assert (select_plans
            (update_budget_plan db month year category subcategory amount)
            month year
          = (List.filter
               (fun r => negb (same_plan_key month year category subcategory r))
               (select_plans db month year)
             ++ [{| b_id := (seq_budget_plans db + 1)%Z; b_month := month;
                    b_year := year; b_category := category;
                    b_subcategory := subcategory; planned_amount := amount |}])%list)
    as Hsel.
  { unfold select_plans, update_budget_plan.
    cbn [with_budget_plans budget_plans]. rewrite List.filter_app.
    cbn [List.filter b_month b_year]. unfold in_period at 2.
    rewrite String.eqb_refl, Z.eqb_refl. cbn [andb]. f_equal.
    rewrite !filter_filter. apply List.filter_ext. intros r. apply andb_comm. }
  split; [|split].
  - rewrite (get_budget_plans_lookup _ _ _ _ _ Hu'), Hsel.
    rewrite find_app_first.
    destruct (List.find _ (List.filter _ _)) as [r|] eqn:E.
    + exfalso. apply List.find_some in E. destruct E as [Hr E].
      apply List.filter_In in Hr. destruct Hr as [Hr Hk].
      apply List.filter_In in Hr. destruct Hr as [_ Hp].
      apply negb_true_iff, not_true_iff_false in Hk. apply Hk.
      unfold same_plan_key. unfold in_period in Hp. rewrite Hp.
      apply andb_prop in E. destruct E as [-> ->]. reflexivity.
    + cbn [List.find b_category b_subcategory].
      rewrite !String.eqb_refl. reflexivity.
  - intros c s Hne.
    rewrite (get_budget_plans_lookup _ _ _ _ _ Hu'),
      (get_budget_plans_lookup _ _ _ _ _ Hu), Hsel.
    rewrite find_app_first, find_filter_implied.
    + destruct (List.find _ (select_plans db month year)); [reflexivity|].
      cbn [List.find b_category b_subcategory].
      destruct (pair_eqb_spec category subcategory c s) as [[-> ->]|];
        [contradiction Hne; reflexivity | reflexivity].
    + intros r _ E. apply negb_true_iff, not_true_iff_false. intros Hk.
      apply same_plan_key_spec in Hk. unfold plan_key in Hk. inversion Hk; subst.
      apply andb_prop in E. destruct E as [Ec Es].
      apply String.eqb_eq in Ec, Es. apply Hne. congruence.
  - intros month' year' Hne. unfold get_budget_plans.
    rewrite update_budget_plan_other_period by exact Hne. reflexivity.
Qed.

Lemma budget_plan_written_is_read_example :
  plans_unique december_plans
  /\ get_budget_plans
       (update_budget_plan december_plans "12" 2024 "Utilities" "PSEG" 135)
       "12" 2024 !! "Utilities" ≫= (fun inner => inner !! "PSEG") = Some 135.
Proof.
  assert (plans_unique december_plans) as Hu.
  { unfold plans_unique. cbn. apply NoDup_cons. split.
    - intros H. apply list_elem_of_In in H. destruct H as [H|[]]. discriminate H.
    - apply NoDup_singleton. }
  split; [exact Hu|].
  apply (budget_plan_written_is_read december_plans "12" 2024 "Utilities" "PSEG"
           135 Hu).
Defined.

(** *** Copying *)

Lemma upsert_plans_unique rows month year : forall db,
  plans_unique db -> plans_unique (upsert_plans db month year rows).
Proof.
  unfold upsert_plans.
  induction rows as [|row rows IH]; intros db Hu; [exact Hu|].
  cbn [fold_left]. apply IH, update_budget_plan_unique, Hu.
Qed.

(** The [UNIQUE(month, year, category, subcategory)] constraint is kept by
    every write to the plans: by an upsert and by a copy from the previous
    month. *)
Theorem plans_stay_unique db :
  plans_unique db ->
  (forall month year category subcategory amount,
      plans_unique (update_budget_plan db month year category subcategory amount))
  /\ (forall target_month target_year db',
        copy_budget_from_previous_month db target_month target_year = Ok db' ->
        plans_unique db').
Proof.
  intros Hu. split.
  - intros. apply update_budget_plan_unique, Hu.
  - intros target_month target_year db' Hcopy.
    unfold copy_budget_from_previous_month in Hcopy.
    destruct (previous_period target_month target_year) as [[pm py]|];
      [|discriminate Hcopy].
    cbn in Hcopy. inversion Hcopy; subst. apply upsert_plans_unique, Hu.
Qed.

Lemma plans_stay_unique_example :
  plans_unique december_plans
  /\ exists db',
       copy_budget_from_previous_month december_plans "01" 2025 = Ok db'
       /\ plans_unique db'.
Proof.
  assert (plans_unique december_plans) as Hu.
  { unfold plans_unique. cbn. apply NoDup_cons. split.
    - intros H. apply list_elem_of_In in H. destruct H as [H|[]]. discriminate H.
    - apply NoDup_singleton. }
  split; [exact Hu|]. eexists. split; [reflexivity|].
  eapply (proj2 (plans_stay_unique december_plans Hu) "01" 2025%Z). reflexivity.
Defined.





End PlanQueries.

(** ** Net worth: tiers and account types *)

Section NetWorthTotals.

Local Open Scope Q_scope.

Lemma tiers_fold rows : forall s,
  liquid_assets (fold_left add_account rows s)
  == liquid_assets s + Qsum (map current_balance (List.filter is_liquid rows))
  /\ semi_liquid_assets (fold_left add_account rows s)
     == semi_liquid_assets s
        + Qsum (map current_balance (List.filter is_semi_liquid rows))
  /\ non_liquid_assets (fold_left add_account rows s)
     == non_liquid_assets s
        + Qsum (map current_balance (List.filter is_non_liquid rows)).
Proof.
  induction rows as [|r rows IH]; intros s.
  - cbn [fold_left List.filter map]. rewrite Qsum_nil. repeat split; ring.
  - cbn [fold_left List.filter]. destruct (IH (add_account s r)) as (Hl & Hs & Hn).
    rewrite Hl, Hs, Hn. clear.
    unfold is_liquid, is_semi_liquid, is_non_liquid, is_liquid, is_semi_liquid.
    cbn [add_account liquid_assets semi_liquid_assets non_liquid_assets].
    destruct (String.eqb (liquidity r) "Liquid") eqn:El;
      destruct (String.eqb (liquidity r) "Semi-Liquid") eqn:Es;
      cbn [negb andb map]; rewrite ?Qsum_cons; repeat split; try ring.
    all: apply String.eqb_eq in El, Es; rewrite El in Es; discriminate Es.
Qed.

Lemma tiers_partition rows :
  Qsum (map current_balance (List.filter is_liquid rows))
  + Qsum (map current_balance (List.filter is_semi_liquid rows))
  + Qsum (map current_balance (List.filter is_non_liquid rows))
  == Qsum (map current_balance rows).
Proof.
  induction rows as [|r rows IH].
  - cbn [List.filter map]. rewrite Qsum_nil. ring.
  - cbn [List.filter map]. rewrite Qsum_cons, <- IH. clear.
    unfold is_non_liquid, is_liquid, is_semi_liquid.
    destruct (String.eqb (liquidity r) "Liquid") eqn:El;
      destruct (String.eqb (liquidity r) "Semi-Liquid") eqn:Es;
      cbn [negb andb map]; rewrite ?Qsum_cons; try ring.
    apply String.eqb_eq in El, Es. rewrite El in Es. discriminate Es.
Qed.

Lemma real_assets_total_sum db :
  real_assets_total db == Qsum (map current_value (real_assets db)).
Proof.
  unfold real_assets_total. destruct (real_assets db) as [|a rows]; [reflexivity|].
  destruct (Qeq_bool _ 0) eqn:E.
  - apply Qeq_bool_eq in E. rewrite <- py_sum_Qsum, E. reflexivity.
  - apply py_sum_Qsum.
Qed.

(** The net worth summary: each tier is the sum of the current balances of
    its accounts, where every liquidity other than 'Liquid' and
    'Semi-Liquid' counts as non-liquid; so every account is counted once,
    and the total assets are the sum of all current balances plus the sum
    of the values of the real assets. *)
Theorem net_worth_tiers_add_up db :
  let s := get_net_worth_summary db in
  liquid_assets s
  == Qsum (map current_balance (List.filter is_liquid (investment_accounts db)))
  /\ semi_liquid_assets s
     == Qsum (map current_balance
                (List.filter is_semi_liquid (investment_accounts db)))
  /\ non_liquid_assets s
     == Qsum (map current_balance
                (List.filter is_non_liquid (investment_accounts db)))
  /\ total_assets s
     == Qsum (map current_balance (investment_accounts db))
        + Qsum (map current_value (real_assets db)).
Proof.
  cbn [get_net_worth_summary liquid_assets semi_liquid_assets non_liquid_assets
       total_assets].
  destruct (tiers_fold (investment_accounts db) net_worth_zero) as (Hl & Hs & Hn).
  cbn [net_worth_zero liquid_assets semi_liquid_assets non_liquid_assets]
    in Hl, Hs, Hn.
  rewrite Hl, Hs, Hn, real_assets_total_sum,
    <- (tiers_partition (investment_accounts db)).
  repeat split; ring.
Qed.

Lemma by_account_type_fold rows : forall s,
  by_account_type (fold_left add_account rows s)
  = fold_left
      (fun (d : gmap string Q) r =>
         <[account_type r := default 0 (d !! account_type r) + current_balance r]> d)
      rows (by_account_type s).
Proof.
  induction rows as [|r rows IH]; intros s; [reflexivity|].
  cbn [fold_left]. rewrite IH. reflexivity.
Qed.

(** The breakdown by account type: a type that no account has is absent,
    and any other type holds the sum of the current balances of its
    accounts. *)
Theorem by_account_type_sums db t :
  match List.filter (fun r => String.eqb (account_type r) t)
          (investment_accounts db) with
  | [] => by_account_type (get_net_worth_summary db) !! t = None
  | rows =>
      exists v, by_account_type (get_net_worth_summary db) !! t = Some v
                /\ v == Qsum (map current_balance rows)
  end.
Proof.
  cbn [get_net_worth_summary by_account_type]. rewrite by_account_type_fold.
  pose proof (accumulate_lookup account_type current_balance _
                (investment_accounts db) t (fun d r => eq_refl)
                (by_account_type net_worth_zero)) as Hacc.
  cbv beta in Hacc.
  destruct (List.filter _ (investment_accounts db)) as [|r rows].
  - rewrite Hacc. apply lookup_empty.
  - destruct Hacc as (v & Hv & Hsum). exists v. split; [exact Hv|].
    rewrite Hsum. cbn [net_worth_zero by_account_type].
    rewrite lookup_empty. cbn [default]. unfold id. ring.
Qed.

(** The (person, balance) pairs the loop adds to [by_person]. *)
Lemma by_person_fold rows : forall s,
  by_person (fold_left add_account rows s)
  = fold_left
      (fun (d : gmap string Q) (pr : string * Q) =>
         <[pr.1 := default 0 (d !! pr.1) + pr.2]> d)
      (flat_map
         (fun r => match truthy (a_person r) with
                   | Some q => [(q, current_balance r)]
                   | None => []
                   end) rows)
      (by_person s).
Proof.
  induction rows as [|r rows IH]; intros s; [reflexivity|].
  cbn [fold_left flat_map]. rewrite IH. cbn [add_account by_person].
  destruct (truthy (a_person r)); reflexivity.
Qed.

Lemma owned_by_pairs person rows :
  map snd
    (List.filter (fun pr : string * Q => String.eqb pr.1 person)
       (flat_map
          (fun r => match truthy (a_person r) with
                    | Some q => [(q, current_balance r)]
                    | None => []
                    end) rows))
  = map current_balance (List.filter (owned_by person) rows).
Proof.
  induction rows as [|r rows IH]; [reflexivity|].
  cbn [flat_map List.filter]. rewrite List.filter_app, map_app, IH.
  unfold owned_by at 2. destruct (truthy (a_person r)) as [q|]; [|reflexivity].
  cbn [List.filter fst]. destruct (String.eqb q person); reflexivity.
Qed.

(** The breakdown by person: a person who owns no account is absent, and
    any other person holds the sum of the current balances of the accounts
    owned; accounts whose person is [NULL] or empty are in no entry. *)
Theorem by_person_sums db person :
  match List.filter (owned_by person) (investment_accounts db) with
  | [] => by_person (get_net_worth_summary db) !! person = None
  | rows =>
      exists v, by_person (get_net_worth_summary db) !! person = Some v
                /\ v == Qsum (map current_balance rows)
  end.
Proof.
  cbn [get_net_worth_summary by_person]. rewrite by_person_fold.
  pose proof (accumulate_lookup (fun pr : string * Q => pr.1) snd _
                (flat_map
                   (fun r => match truthy (a_person r) with
                             | Some q => [(q, current_balance r)]
                             | None => []
                             end) (investment_accounts db))
                person (fun d r => eq_refl)
                (by_person net_worth_zero)) as Hacc.
  cbv beta in Hacc.
  pose proof (owned_by_pairs person (investment_accounts db)) as Hpairs.
  destruct (List.filter (owned_by person) (investment_accounts db)) as [|r rows];
    destruct (List.filter _ (flat_map _ _)) as [|pr prs];
    try discriminate Hpairs.
  - rewrite Hacc. apply lookup_empty.
  - destruct Hacc as (v & Hv & Hsum). exists v. split; [exact Hv|].
    rewrite Hsum, Hpairs. cbn [net_worth_zero by_person].
    rewrite lookup_empty. cbn [default]. unfold id. ring.
Qed.

(** *** Updating a balance *)

Lemma with_investment_accounts_same db :
  with_investment_accounts db (investment_accounts db) = db.
Proof. destruct db. reflexivity. Qed.

(** Updating an account that does not exist changes nothing. *)
Theorem update_missing_account db name new_balance now :
  (forall r, In r (investment_accounts db) -> account_name r <> name) ->
  update_investment_account db name new_balance now = db.
Proof.
  intros H. unfold update_investment_account.
  rewrite map_unchanged; [apply with_investment_accounts_same|].
  intros r Hr. apply H in Hr. apply String.eqb_neq in Hr. rewrite Hr. reflexivity.
Qed.

Lemma update_missing_account_example :
  update_investment_account two_accounts "Brokerage" 10 "2024-03-01" = two_accounts.
Proof.
  apply update_missing_account.
  intros r [<-|[<-|[]]]; discriminate.
Defined.

(** An update touches the named account alone: the names of the accounts
    and their order stay, every account of another name is as before, and
    no other table changes. *)
Theorem update_investment_account_frame db name new_balance now :
  let db' := update_investment_account db name new_balance now in
  map account_name (investment_accounts db') = map account_name (investment_accounts db)
  /\ (forall r, account_name r <> name ->
        (In r (investment_accounts db') <-> In r (investment_accounts db)))
  /\ income db' = income db
  /\ expenses db' = expenses db
  /\ savings_goals db' = savings_goals db
  /\ budget_plans db' = budget_plans db
  /\ real_assets db' = real_assets db.
Proof.
  cbn zeta. unfold update_investment_account.
  cbn [with_investment_accounts investment_accounts income expenses
       savings_goals budget_plans real_assets].
  split; [|split; [|repeat split]].
  - rewrite map_map. apply map_ext. intros r.
    destruct (String.eqb (account_name r) name); reflexivity.
  - intros r Hne. rewrite in_map_iff. split.
    + intros (r0 & E & Hr0).
      destruct (String.eqb_spec (account_name r0) name) as [E0|E0].
      * subst r. cbn in Hne. contradiction.
      * subst r. exact Hr0.
    + intros Hr. exists r. split; [|exact Hr].
      apply String.eqb_neq in Hne. rewrite Hne. reflexivity.
Qed.

(** Two updates in a row: the balance of the first becomes the previous
    balance, so the month-over-month change compares the last two balances
    given, not the balance the month started with. *)
Theorem update_twice db name first second now1 now2 a :
  account_names_unique db ->
  In a (investment_accounts db) ->
  account_name a = name ->
  let db2 :=
    update_investment_account
      (update_investment_account db name first now1) name second now2 in
  List.find (fun r => String.eqb (account_name r) name) (investment_accounts db2)
  = Some {| a_id := a_id a; account_name := account_name a;
            account_type := account_type a; liquidity := liquidity a;
            current_balance := second; previous_balance := first;
            last_updated := now2; a_person := a_person a;
            institution := institution a |}.
Proof.
  intros Hu Hin <- db2. subst db2.
  assert (forall d b t,
            List.find (fun r => String.eqb (account_name r) (account_name a))
              (investment_accounts d) = Some a ->
            List.find (fun r => String.eqb (account_name r) (account_name a))
              (investment_accounts
                 (update_investment_account d (account_name a) b t))
            = Some {| a_id := a_id a; account_name := account_name a;
                      account_type := account_type a; liquidity := liquidity a;
                      current_balance := b;
                      previous_balance := current_balance a;
                      last_updated := t; a_person := a_person a;
                      institution := institution a |}) as Hstep.
  { intros d b t Hfind. unfold update_investment_account. rewrite Hfind.
    cbn [with_investment_accounts investment_accounts].
    rewrite find_map_account.
    - rewrite Hfind. cbn. rewrite String.eqb_refl. reflexivity.
    - intros r. destruct (String.eqb (account_name r) (account_name a));
        reflexivity. }
  pose proof (Hstep db first now1 (find_account _ a Hu Hin)) as H1.
  unfold update_investment_account at 1. rewrite H1.
  cbn [with_investment_accounts investment_accounts current_balance].
  rewrite find_map_account.
  - rewrite H1. cbn. rewrite String.eqb_refl. reflexivity.
  - intros r. destruct (String.eqb (account_name r) (account_name a));
      reflexivity.
Qed.

Lemma update_twice_example :
  account_names_unique two_accounts
  /\ In checking_account (investment_accounts two_accounts)
  /\ List.find (fun r => String.eqb (account_name r) "Checking")
       (investment_accounts
          (update_investment_account
             (update_investment_account two_accounts "Checking" 300 "2024-03-01")
             "Checking" 320 "2024-03-02"))
     = Some {| a_id := 2; account_name := "Checking"; account_type := "Cash";
               liquidity := "Liquid"; current_balance := 320;
               previous_balance := 300; last_updated := "2024-03-02";
               a_person := Some "Joint";
               institution := Some "Bank of America" |}.
Proof.
  assert (account_names_unique two_accounts) as Hu.
  { unfold account_names_unique. cbn. apply NoDup_cons. split.
    - intros H. apply list_elem_of_In in H. destruct H as [H|[]]. discriminate H.
    - apply NoDup_singleton. }
  assert (In checking_account (investment_accounts two_accounts)) as Hin
    by (right; left; reflexivity).
  split; [exact Hu|]. split; [exact Hin|].
  exact (update_twice two_accounts "Checking" 300 320 "2024-03-01" "2024-03-02"
           checking_account Hu Hin eq_refl).
Defined.

End NetWorthTotals.

(** ** Savings goals: absolute updates, deactivation and missing ids *)

Section GoalUpdates.

Local Open Scope Q_scope.

Lemma with_savings_goals_same db : with_savings_goals db (savings_goals db) = db.
Proof. destruct db. reflexivity. Qed.

(** A contribution, an absolute update or a deactivation of an id that no
    goal has changes nothing. *)
Theorem goal_update_missing_id db goal_id :
  (forall g, In g (savings_goals db) -> g_id g <> goal_id) ->
  (forall amount, update_savings_goal_contribution db goal_id amount = db)
  /\ (forall amount, update_savings_goal db goal_id amount = db)
  /\ deactivate_savings_goal db goal_id = db.
Proof.
  intros H.
  assert (forall f : savings_goal -> savings_goal,
            map (fun g => if (g_id g =? goal_id)%Z then f g else g)
              (savings_goals db) = savings_goals db) as Hmap.
  { intros f. apply map_unchanged. intros g Hg. apply H in Hg.
    apply Z.eqb_neq in Hg. rewrite Hg. reflexivity. }
  split; [|split]; intros;
    unfold update_savings_goal_contribution, update_savings_goal,
      deactivate_savings_goal;
    rewrite Hmap; apply with_savings_goals_same.
Qed.

Lemma goal_update_missing_id_example :
  update_savings_goal_contribution one_goal 9 100 = one_goal.
Proof.
  apply (goal_update_missing_id one_goal 9).
  intros g [<-|[]]. discriminate.
Defined.

Lemma contribute_all_goal xs : forall db goal_id g,
  goal_by_id db goal_id = Some g ->
  goal_by_id (contribute_all db goal_id xs) goal_id
  = Some (set_current_amount g (fold_left Qplus xs (current_amount g))).
Proof.
  induction xs as [|x xs IH]; intros db goal_id g Hg.
  - cbn. rewrite Hg. destruct g. reflexivity.
  - unfold contribute_all. cbn [fold_left].
    fold (contribute_all (update_savings_goal_contribution db goal_id x) goal_id xs).
    rewrite (IH _ _ (set_current_amount g (current_amount g + x))).
    + reflexivity.
    + rewrite contribution_adds, Hg. reflexivity.
Qed.

(** The absolute update sets the amount whatever was contributed before,
    and a contribution made after it adds to the amount set. *)
Theorem absolute_update_overrides db goal_id g :
  goal_by_id db goal_id = Some g ->
  forall contributions amount,
    goal_by_id
      (update_savings_goal (contribute_all db goal_id contributions) goal_id amount)
      goal_id
    = Some (set_current_amount g amount)
    /\ forall more,
         goal_by_id
           (update_savings_goal_contribution
              (update_savings_goal (contribute_all db goal_id contributions)
                 goal_id amount)
              goal_id more)
           goal_id
         = Some (set_current_amount g (amount + more)).
Proof.
  intros Hg contributions amount.
  assert (goal_by_id
            (update_savings_goal (contribute_all db goal_id contributions)
               goal_id amount) goal_id
          = Some (set_current_amount g amount)) as Hset.
  { unfold update_savings_goal. rewrite goal_by_id_map.
    - rewrite (contribute_all_goal _ _ _ _ Hg). cbn.
      assert (g_id g = goal_id) as E.
      { unfold goal_by_id in Hg. apply List.find_some in Hg.
        destruct Hg as [_ Hg]. apply Z.eqb_eq in Hg. exact Hg. }
      rewrite E, Z.eqb_refl. reflexivity.
    - intros g0. destruct (g_id g0 =? goal_id)%Z; reflexivity. }
  split; [exact Hset|].
  intros more. rewrite contribution_adds, Hset. reflexivity.
Qed.

Lemma absolute_update_overrides_example :
  goal_by_id one_goal 1 = Some vacation_goal
  /\ goal_by_id
       (update_savings_goal (contribute_all one_goal 1 [100; 50]) 1 20) 1
     = Some (set_current_amount vacation_goal 20).
Proof.
  split; [reflexivity|].
  apply (absolute_update_overrides one_goal 1 vacation_goal eq_refl [100; 50] 20).
Defined.

(** [get_savings_goals] lists the active goals and nothing else. *)
Lemma get_savings_goals_active db g :
  In g (get_savings_goals db) <-> In g (savings_goals db) /\ is_active g = true.
Proof.
  unfold get_savings_goals. rewrite <- List.filter_In.
  pose proof (merge_sort_Permutation goal_order
                (List.filter is_active (savings_goals db))) as Hp.
  split; intros H.
  - apply (Permutation_in _ Hp), H.
  - apply (Permutation_in _ (Permutation_sym Hp)), H.
Qed.

(** Deactivation hides a goal without deleting it: the goal is no longer
    listed, it is still in the table with the amount it held, the other
    goals are listed as before, and a contribution to it is still added. *)
Theorem deactivated_goal_is_kept db goal_id g :
  goal_by_id db goal_id = Some g ->
  let db' := deactivate_savings_goal db goal_id in
  (forall g', In g' (get_savings_goals db') -> g_id g' <> goal_id)
  /\ (exists g', goal_by_id db' goal_id = Some g'
                 /\ is_active g' = false
                 /\ current_amount g' = current_amount g
                 /\ g_name g' = g_name g)
  /\ (forall g', g_id g' <> goal_id ->
        (In g' (get_savings_goals db') <-> In g' (get_savings_goals db)))
  /\ (forall amount,
        exists g', goal_by_id
                     (update_savings_goal_contribution db' goal_id amount) goal_id
                   = Some g'
                   /\ current_amount g' = current_amount g + amount).
Proof.
  intros Hg db'. subst db'.
  assert (goal_by_id (deactivate_savings_goal db goal_id) goal_id
          = Some {| g_id := g_id g; g_name := g_name g;
                    target_amount := target_amount g;
                    current_amount := current_amount g;
                    monthly_contribution := monthly_contribution g;
                    target_date := target_date g; priority := priority g;
                    is_active := false |}) as Hd.
  { unfold deactivate_savings_goal. rewrite goal_by_id_map.
    - rewrite Hg. cbn.
      unfold goal_by_id in Hg. apply List.find_some in Hg.
      destruct Hg as [_ Hg]. rewrite Hg. reflexivity.
    - intros g0. destruct (g_id g0 =? goal_id)%Z; reflexivity. }
  split; [|split; [|split]].
  - intros g' Hin Hid. apply get_savings_goals_active in Hin.
    destruct Hin as [Hin Hact].
    unfold deactivate_savings_goal in Hin. cbn in Hin.
    apply in_map_iff in Hin. destruct Hin as (g0 & E & _).
    destruct (Z.eqb_spec (g_id g0) goal_id) as [E0|E0].
    + subst g'. discriminate Hact.
    + subst g'. contradiction.
  - eexists. split; [exact Hd|]. repeat split; reflexivity.
  - intros g' Hid. rewrite !get_savings_goals_active.
    unfold deactivate_savings_goal. cbn [with_savings_goals savings_goals].
    rewrite in_map_iff. split.
    + intros [(g0 & E & Hg0) Hact]. split; [|exact Hact].
      destruct (Z.eqb_spec (g_id g0) goal_id) as [E0|E0].
      * subst g'. cbn in Hid. contradiction.
      * subst g'. exact Hg0.
    + intros [Hin Hact]. split; [|exact Hact].
      exists g'. split; [|exact Hin].
      apply Z.eqb_neq in Hid. rewrite Hid. reflexivity.
  - intros amount. rewrite contribution_adds, Hd. cbn.
    eexists. split; reflexivity.
Qed.

Lemma deactivated_goal_is_kept_example :
  goal_by_id one_goal 1 = Some vacation_goal
  /\ get_savings_goals (deactivate_savings_goal one_goal 1) = []
  /\ exists g',
       goal_by_id
         (update_savings_goal_contribution (deactivate_savings_goal one_goal 1) 1 75)
         1 = Some g'
       /\ current_amount g' = current_amount vacation_goal + 75.
Proof.
  split; [reflexivity|]. split; [reflexivity|].
  destruct (deactivated_goal_is_kept one_goal 1 vacation_goal eq_refl)
    as (_ & _ & _ & H).
  apply H.
Defined.

End GoalUpdates.

(** ** CSV import: counts, error labels and the rows written *)

Section ImportAccounting.

Variable py_float : string -> option Q.
Variable now : string.

Lemma import_rows_count data_type rows : forall db imported errors db' n errs,
  import_rows py_float now data_type rows db imported errors = (db', n, errs) ->
  (n + length errs = imported + length errors + length rows)%nat.
Proof.
  induction rows as [|row rows IH]; intros db imported errors db' n errs H.
  - cbn in H. inversion H; subst. cbn. lia.
  - cbn [import_rows] in H.
    destruct (import_row py_float now data_type db row) as [db1|e].
    + apply IH in H. cbn [length]. lia.
    + apply IH in H. rewrite length_app in H. cbn [length] in *. lia.
Qed.

(** Every row of a readable file is either counted as imported or recorded
    as an error, whatever the [data_type]. *)
Theorem import_accounts_for_every_row db rows data_type db' n errs :
  import_csv_data py_float now db (Ok rows) data_type = (db', Imported n errs) ->
  (n + length errs = length rows)%nat.
Proof.
  unfold import_csv_data.
  destruct (import_rows py_float now data_type rows db 0 []) as [[d k] es] eqn:E.
  intros H. inversion H; subst.
  apply import_rows_count in E. cbn in E. lia.
Qed.

Lemma import_rows_labels data_type rows : forall db imported errors db' n errs,
  import_rows py_float now data_type rows db imported errors = (db', n, errs) ->
  map fst errs
  = (map fst errors
     ++ imap (fun j position => (position - (length errors + j))%nat)
          (failing_rows py_float now data_type rows db
             (imported + length errors + 1)))%list.
Proof.
  induction rows as [|row rows IH]; intros db imported errors db' n errs H.
  - cbn in H. inversion H; subst. cbn. rewrite app_nil_r. reflexivity.
  - cbn [import_rows failing_rows] in *.
    destruct (import_row py_float now data_type db row) as [db1|e].
    + apply IH in H. exact H.
    + apply IH in H. rewrite H. rewrite map_app, length_app. cbn [map fst length].
      rewrite <- app_assoc. f_equal. cbn [app imap]. f_equal; [lia|].
      replace (imported + (length errors + 1) + 1)%nat
        with (S (imported + length errors + 1)) by lia.
      apply imap_ext. intros j position _. cbn. lia.
Qed.

(** The label of an error is not the number of its row: the error number j
    (from 0) of a file is labelled with the number of its row minus j, so
    only the first error names its own row. *)
Theorem import_error_labels db rows data_type db' n errs :
  import_csv_data py_float now db (Ok rows) data_type = (db', Imported n errs) ->
  map fst errs
  = imap (fun j position => (position - j)%nat)
      (failing_rows py_float now data_type rows db 1).
Proof.
  unfold import_csv_data.
  destruct (import_rows py_float now data_type rows db 0 []) as [[d k] es] eqn:E.
  intros H. inversion H; subst.
  apply import_rows_labels in E. cbn in E. exact E.
Qed.

Lemma import_expense_appends db row db' :
  import_expense py_float now db row = Ok db' ->
  exists r, expenses db' = (expenses db ++ [r])%list
            /\ income db' = income db
            /\ investment_accounts db' = investment_accounts db
            /\ savings_goals db' = savings_goals db
            /\ budget_plans db' = budget_plans db.
Proof.
  unfold import_expense, add_expense. intros H.
  repeat match type of H with
         | context [match ?x with _ => _ end] =>
             destruct x; cbn in H; try discriminate H
         | (mbind _ ?x = _) =>
             destruct x; cbn in H; try discriminate H
         end.
  inversion H; subst. eexists. repeat split; reflexivity.
Qed.

Lemma import_income_appends db row db' :
  import_income py_float now db row = Ok db' ->
  exists r, income db' = (income db ++ [r])%list
            /\ expenses db' = expenses db
            /\ investment_accounts db' = investment_accounts db
            /\ savings_goals db' = savings_goals db
            /\ budget_plans db' = budget_plans db.
Proof.
  unfold import_income, add_income. intros H.
  repeat match type of H with
         | context [match ?x with _ => _ end] =>
             destruct x; cbn in H; try discriminate H
         | (mbind _ ?x = _) =>
             destruct x; cbn in H; try discriminate H
         end.
  inversion H; subst. eexists. repeat split; reflexivity.
Qed.

Lemma import_rows_expenses rows : forall db imported errors db' n errs,
  import_rows py_float now "expenses" rows db imported errors = (db', n, errs) ->
  exists new,
    expenses db' = (expenses db ++ new)%list
    /\ (imported + length new = n)%nat
    /\ income db' = income db
    /\ investment_accounts db' = investment_accounts db
    /\ savings_goals db' = savings_goals db
    /\ budget_plans db' = budget_plans db.
Proof.
  induction rows as [|row rows IH]; intros db imported errors db' n errs H.
  - cbn in H. inversion H; subst. exists []. rewrite app_nil_r. cbn.
    repeat split; try reflexivity. lia.
  - cbn [import_rows] in H. unfold import_row in H. cbn [String.eqb Ascii.eqb] in H.
    destruct (import_expense py_float now db row) as [db1|e] eqn:E.
    + apply import_expense_appends in E.
      destruct E as (r & He & Hi & Ha & Hg & Hb).
      apply IH in H. destruct H as (new & He' & Hn & Hi' & Ha' & Hg' & Hb').
      exists (r :: new). rewrite He', He, <- app_assoc. cbn [app length].
      repeat split; try congruence. lia.
    + apply IH in H. exact H.
Qed.

Lemma import_rows_income rows : forall db imported errors db' n errs,
  import_rows py_float now "income" rows db imported errors = (db', n, errs) ->
  exists new,
    income db' = (income db ++ new)%list
    /\ (imported + length new = n)%nat
    /\ expenses db' = expenses db
    /\ investment_accounts db' = investment_accounts db
    /\ savings_goals db' = savings_goals db
    /\ budget_plans db' = budget_plans db.
Proof.
  induction rows as [|row rows IH]; intros db imported errors db' n errs H.
  - cbn in H. inversion H; subst. exists []. rewrite app_nil_r. cbn.
    repeat split; try reflexivity. lia.
  - cbn [import_rows] in H. unfold import_row in H. cbn [String.eqb Ascii.eqb] in H.
    destruct (import_income py_float now db row) as [db1|e] eqn:E.
    + apply import_income_appends in E.
      destruct E as (r & He & Hi & Ha & Hg & Hb).
      apply IH in H. destruct H as (new & He' & Hn & Hi' & Ha' & Hg' & Hb').
      exists (r :: new). rewrite He', He, <- app_assoc. cbn [app length].
      repeat split; try congruence. lia.
    + apply IH in H. exact H.
Qed.

(** An import writes one table only, and only at its end: after an import
    of expenses the expense table is the old one followed by as many new
    rows as were counted, and the income table is as before; likewise for
    an import of income.  Rows written before a failing row stay written. *)
Theorem import_appends_counted_rows db rows db' n errs :
  (import_csv_data py_float now db (Ok rows) "expenses" = (db', Imported n errs) ->
   exists new, expenses db' = (expenses db ++ new)%list
               /\ length new = n /\ income db' = income db)
  /\ (import_csv_data py_float now db (Ok rows) "income" = (db', Imported n errs) ->
      exists new, income db' = (income db ++ new)%list
                  /\ length new = n /\ expenses db' = expenses db).
Proof.
  unfold import_csv_data. split.
  - destruct (import_rows py_float now "expenses" rows db 0 []) as [[d k] es] eqn:E.
    intros H. inversion H; subst.
    apply import_rows_expenses in E. destruct E as (new & He & Hn & Hi & _).
    exists new. repeat split; assumption.
  - destruct (import_rows py_float now "income" rows db 0 []) as [[d k] es] eqn:E.
    intros H. inversion H; subst.
    apply import_rows_income in E. destruct E as (new & He & Hn & Hi & _).
    exists new. repeat split; assumption.
Qed.

End ImportAccounting.

(** A file of four lines whose second and fourth amounts are no numbers:
    two rows are imported, and the errors are labelled 2 and 3 although the
    rows that failed are the rows 2 and 4. *)
Lemma import_error_labels_example :
  exists db',
    import_csv_data float_of_digits "2024-03-31" empty_database
      (Ok [expense_line "2024-03-01" "12"; expense_line "2024-03-02" "n/a";
           expense_line "2024-03-03" "7"; expense_line "2024-03-04" "abc"])
      "expenses"
    = (db', Imported 2 [(2%nat, ValueError); (3%nat, ValueError)])
    /\ failing_rows float_of_digits "2024-03-31" "expenses"
         [expense_line "2024-03-01" "12"; expense_line "2024-03-02" "n/a";
          expense_line "2024-03-03" "7"; expense_line "2024-03-04" "abc"]
         empty_database 1
       = [2%nat; 4%nat]
    /\ map fst [(2%nat, ValueError); (3%nat, ValueError)]
       = imap (fun j position => (position - j)%nat)
           (failing_rows float_of_digits "2024-03-31" "expenses"
              [expense_line "2024-03-01" "12"; expense_line "2024-03-02" "n/a";
               expense_line "2024-03-03" "7"; expense_line "2024-03-04" "abc"]
              empty_database 1).
Proof.
  destruct (import_csv_data float_of_digits "2024-03-31" empty_database
              (Ok [expense_line "2024-03-01" "12"; expense_line "2024-03-02" "n/a";
                   expense_line "2024-03-03" "7"; expense_line "2024-03-04" "abc"])
              "expenses") as [db' r] eqn:E.
  assert (r = Imported 2 [(2%nat, ValueError); (3%nat, ValueError)]) as ->.
  { vm_compute in E. inversion E. reflexivity. }
  exists db'. split; [reflexivity|]. split; [vm_compute; reflexivity|].
  exact (import_error_labels _ _ _ _ _ _ _ _ E).
Defined.

Lemma import_accounts_for_every_row_example :
  exists db',
    import_csv_data float_of_digits "2024-03-31" empty_database
      (Ok [expense_line "2024-03-01" "12"; expense_line "2024-03-02" "n/a";
           expense_line "2024-03-03" "7"])
      "expenses"
    = (db', Imported 2 [(2%nat, ValueError)])
    /\ (2 + length [(2%nat, ValueError)]
        = length [expense_line "2024-03-01" "12"; expense_line "2024-03-02" "n/a";
                  expense_line "2024-03-03" "7"])%nat.
Proof.
  destruct (import_csv_data float_of_digits "2024-03-31" empty_database
              (Ok [expense_line "2024-03-01" "12"; expense_line "2024-03-02" "n/a";
                   expense_line "2024-03-03" "7"])
              "expenses") as [db' r] eqn:E.
  assert (r = Imported 2 [(2%nat, ValueError)]) as ->.
  { vm_compute in E. inversion E. reflexivity. }
  exists db'. split; [reflexivity|].
  exact (import_accounts_for_every_row _ _ _ _ _ _ _ _ E).
Defined.

Lemma import_appends_counted_rows_example :
  exists db' new,
    import_csv_data float_of_digits "2024-03-31" march_ledger
      (Ok [expense_line "2024-03-01" "12"; expense_line "2024-03-02" "n/a";
           expense_line "2024-03-03" "7"])
      "expenses"
    = (db', Imported 2 [(2%nat, ValueError)])
    /\ expenses db' = (expenses march_ledger ++ new)%list
    /\ length new = 2%nat
    /\ income db' = income march_ledger.
Proof.
  destruct (import_csv_data float_of_digits "2024-03-31" march_ledger
              (Ok [expense_line "2024-03-01" "12"; expense_line "2024-03-02" "n/a";
                   expense_line "2024-03-03" "7"])
              "expenses") as [db' r] eqn:E.
  assert (r = Imported 2 [(2%nat, ValueError)]) as ->.
  { vm_compute in E. inversion E. reflexivity. }
  destruct (proj1 (import_appends_counted_rows float_of_digits "2024-03-31"
                     march_ledger _ db' 2 [(2%nat, ValueError)]) E)
    as (new & He & Hn & Hi).
  exists db', new. repeat split; assumption.
Defined.

(** ** Monthly summaries and the year to date *)

Section Summaries.

Local Open Scope Q_scope.

Lemma or_zero_sum xs : or_zero (sql_sum xs) == Qsum xs.
Proof.
  destruct xs as [|x xs]; [reflexivity|].
  unfold sql_sum, or_zero. destruct (Qeq_bool _ 0) eqn:E.
  - apply Qeq_bool_eq in E. rewrite <- py_sum_Qsum, E. reflexivity.
  - apply py_sum_Qsum.
Qed.

(** The year to date: each total is the sum of its column over the
    summaries of the year (0 when there is none), and the savings rate is
    the mean of the rates of those summaries (0 when there is none). *)
Theorem year_to_date_sums t year :
  let ytd := get_year_to_date_summary t year in
  let rows := summaries_of_year t year in
  ytd_income ytd == Qsum (map s_total_income rows)
  /\ ytd_expenses ytd == Qsum (map s_total_expenses rows)
  /\ ytd_saved ytd == Qsum (map s_total_saved rows)
  /\ avg_savings_rate ytd
     == match rows with
        | [] => 0
        | _ => Qsum (map s_savings_rate rows) / inject_Z (Z.of_nat (length rows))
        end.
Proof.
  cbn zeta. unfold get_year_to_date_summary, summaries_of_year.
  cbn [ytd_income ytd_expenses ytd_saved avg_savings_rate].
  rewrite !or_zero_sum. repeat split; try reflexivity.
  destruct (List.filter _ (summary_rows t)) as [|r rows]; [reflexivity|].
  unfold sql_avg, or_zero. cbn [map length]. rewrite length_map.
  destruct (Qeq_bool _ 0) eqn:E.
  - apply Qeq_bool_eq in E. rewrite <- E, py_sum_Qsum. reflexivity.
  - rewrite py_sum_Qsum. reflexivity.
Qed.

Lemma filter_none {A} (f : A -> bool) xs :
  (forall x, In x xs -> f x = false) -> List.filter f xs = [].
Proof.
  induction xs as [|x xs IH]; intros H; [reflexivity|].
  cbn [List.filter]. rewrite (H x (or_introl eq_refl)).
  apply IH. intros y Hy. apply H. right. exact Hy.
Qed.

(** Saving a summary replaces the one of its month: the table then holds
    one row for the month, with the amounts given (0 for a missing key),
    the rows of the other months are as before, and the year to date
    counts the month once, with the new amount. *)
Theorem saved_summary_replaces t month year data :
  let t' := save_monthly_summary t month year data in
  List.filter (same_month month year) (summary_rows t')
  = [{| s_id := (seq_monthly_summary t + 1)%Z; s_month := month; s_year := year;
        s_total_income := default 0 (sd_total_income data);
        s_total_expenses := default 0 (sd_total_expenses data);
        s_total_saved := default 0 (sd_total_saved data);
        s_net_worth := default 0 (sd_net_worth data);
        s_budget_variance := default 0 (sd_budget_variance data);
        s_savings_rate := default 0 (sd_savings_rate data);
        s_notes := default "" (sd_notes data) |}]
  /\ List.filter (fun r => negb (same_month month year r)) (summary_rows t')
     = List.filter (fun r => negb (same_month month year r)) (summary_rows t)
  /\ ytd_income (get_year_to_date_summary t' year)
     == Qsum (map s_total_income (other_months_of_year t month year))
        + default 0 (sd_total_income data).
Proof.
  cbn zeta. unfold save_monthly_summary. cbn [summary_rows].
  split; [|split].
  - rewrite List.filter_app. rewrite filter_none.
    + cbn [List.filter app]. unfold same_month at 1. cbn [s_month s_year].
      rewrite String.eqb_refl, Z.eqb_refl. reflexivity.
    + intros r Hr. apply List.filter_In in Hr. destruct Hr as [_ Hr].
      apply negb_true_iff in Hr. exact Hr.
  - rewrite List.filter_app. rewrite filter_filter.
    cbn [List.filter]. unfold same_month at 3. cbn [s_month s_year].
    rewrite String.eqb_refl, Z.eqb_refl. cbn [andb negb]. rewrite app_nil_r.
    apply List.filter_ext. intros r. destruct (same_month month year r); reflexivity.
  - unfold get_year_to_date_summary. cbn [ytd_income summary_rows].
    rewrite or_zero_sum. rewrite List.filter_app, map_app, Qsum_app.
    cbn [List.filter s_year]. rewrite Z.eqb_refl. cbn [map s_total_income].
    rewrite Qsum_cons, Qsum_nil. rewrite filter_filter.
    unfold other_months_of_year.
    assert (List.filter
              (fun x => negb (same_month month year x) && (s_year x =? year)%Z)
              (summary_rows t)
            = List.filter
                (fun r => (s_year r =? year)%Z && negb (String.eqb (s_month r) month))
                (summary_rows t)) as ->.
    { apply List.filter_ext. intros r. unfold same_month.
      destruct (s_year r =? year)%Z, (String.eqb (s_month r) month); reflexivity. }
    ring.
Qed.

(** April 2024 saved again: the year to date takes March as it was and
    April with the new income. *)
Lemma saved_summary_replaces_example :
  ytd_income (get_year_to_date_summary
                (save_monthly_summary spring_summaries "04" 2024 april_again) 2024)
  == 3000 + 3200.
Proof.
  destruct (saved_summary_replaces spring_summaries "04" 2024 april_again)
    as (_ & _ & H).
  rewrite H. reflexivity.
Defined.

End Summaries.
